(** * customstore: the record query builder and its statement compiler

    A shallow embedding of [recordQueryImplementation] (the query builder,
    its [Validate] and its [ToSelectDataset]) together with the small part
    of the goqu builder and of Go's [strings] package that the compiler
    calls, followed by the properties of validation, of the setters and of
    the compiled statement. *)

From Stdlib Require Import String Ascii List ZArith NArith Bool Lia.
Import ListNotations.

Local Open Scope string_scope.
Set Warnings "-register-all".

(** ** Go's [strings] package, as far as the query code calls it *)

Module strings.

(** A Go string is a sequence of bytes; [string] is a list of 8-bit
    characters, so the two coincide. *)
Definition bytes (s : string) : list N :=
  map N_of_ascii (list_ascii_of_string s).

Definition of_bytes (l : list N) : string :=
  string_of_list_ascii (map ascii_of_N l).

Definition RuneError : N := 0xFFFD.

Definition in_range (lo hi b : N) : bool := ((lo <=? b) && (b <=? hi))%N.

Definition continuation (b : N) : bool := in_range 0x80 0xBF b.

(** [utf8.DecodeRuneInString]: the first rune of [s] and its width in
    bytes; an ill-formed sequence decodes to [RuneError] of width 1. *)
Definition DecodeRune (s : list N) : N * nat :=
  match s with
  | [] => (RuneError, 0%nat)
  | b0 :: t =>
    if (b0 <? 0x80)%N then (b0, 1%nat)
    else if in_range 0xC2 0xDF b0 then
      match t with
      | b1 :: _ =>
        if continuation b1
        then (N.lor (N.shiftl (N.land b0 0x1F) 6) (N.land b1 0x3F), 2%nat)
        else (RuneError, 1%nat)
      | _ => (RuneError, 1%nat)
      end
    else if in_range 0xE0 0xEF b0 then
      match t with
      | b1 :: b2 :: _ =>
        let lo := if (b0 =? 0xE0)%N then 0xA0%N else 0x80%N in
        let hi := if (b0 =? 0xED)%N then 0x9F%N else 0xBF%N in
        if in_range lo hi b1 && continuation b2
        then (N.lor (N.shiftl (N.land b0 0x0F) 12)
                (N.lor (N.shiftl (N.land b1 0x3F) 6) (N.land b2 0x3F)), 3%nat)
        else (RuneError, 1%nat)
      | _ => (RuneError, 1%nat)
      end
    else if in_range 0xF0 0xF4 b0 then
      match t with
      | b1 :: b2 :: b3 :: _ =>
        let lo := if (b0 =? 0xF0)%N then 0x90%N else 0x80%N in
        let hi := if (b0 =? 0xF4)%N then 0x8F%N else 0xBF%N in
        if in_range lo hi b1 && continuation b2 && continuation b3
        then (N.lor (N.shiftl (N.land b0 0x07) 18)
                (N.lor (N.shiftl (N.land b1 0x3F) 12)
                   (N.lor (N.shiftl (N.land b2 0x3F) 6) (N.land b3 0x3F))),
              4%nat)
        else (RuneError, 1%nat)
      | _ => (RuneError, 1%nat)
      end
    else (RuneError, 1%nat)
  end.

(** [unicode.IsSpace]: the Latin-1 spaces and the White_Space table. *)
Definition IsSpace (r : N) : bool :=
  in_range 0x09 0x0D r || (r =? 0x20)%N || (r =? 0x85)%N || (r =? 0xA0)%N
  || (r =? 0x1680)%N || in_range 0x2000 0x200A r
  || in_range 0x2028 0x2029 r || (r =? 0x202F)%N || (r =? 0x205F)%N
  || (r =? 0x3000)%N.

(** The runes of a byte string, each with the bytes that encode it.  Every
    rune is at least one byte wide, so [length s] steps are enough. *)
Fixpoint runes_fuel (fuel : nat) (s : list N) : list (N * list N) :=
  match fuel with
  | O => []
  | S fuel' =>
    match s with
    | [] => []
    | _ :: _ =>
      let (r, w) := DecodeRune s in
      (r, firstn w s) :: runes_fuel fuel' (skipn w s)
    end
  end.

Definition runes (s : list N) : list (N * list N) :=
  runes_fuel (length s) s.

Fixpoint dropWhile {A : Type} (p : A -> bool) (l : list A) : list A :=
  match l with
  | [] => []
  | x :: l' => if p x then dropWhile p l' else l
  end.

Definition dropWhileEnd {A : Type} (p : A -> bool) (l : list A) : list A :=
  rev (dropWhile p (rev l)).

(** [strings.TrimSpace]: [s] without its leading and trailing white
    space, as [TrimFunc s unicode.IsSpace] computes it rune by rune. *)
Definition TrimSpace (s : string) : string :=
  let space := fun c : N * list N => IsSpace (fst c) in
  of_bytes (concat (map snd (dropWhileEnd space (dropWhile space (runes (bytes s)))))).

Definition lower (c : ascii) : ascii :=
  let n := N_of_ascii c in
  if in_range 0x41 0x5A n then ascii_of_N (n + 0x20) else c.

(** [strings.EqualFold], on the ASCII letters: the compiler only calls it
    on the two direction constants of the sb package. *)
Definition EqualFold (s t : string) : bool :=
  String.eqb (string_of_list_ascii (map lower (list_ascii_of_string s)))
             (string_of_list_ascii (map lower (list_ascii_of_string t))).

End strings.

(** A string is blank when nothing is left of it after trimming. *)
Definition blank (s : string) : bool := strings.TrimSpace s =? "".

(** ** The goqu builder, as far as the compiler drives it

    goqu is an external library: a dataset is modelled by the clauses the
    compiler hands to it, in the order of the calls. *)

Module goqu.

Inductive IdentifierExpression : Type :=
| C (col : string)      (* goqu.C: a column *)
| I (ident : string).   (* goqu.I: an identifier *)

Definition name (i : IdentifierExpression) : string :=
  match i with C s => s | I s => s end.

(** A date-time string "2006-01-02 15:04:05" in UTC is fixed-width, so its
    order is that of the instant it denotes; it is kept as that instant,
    in seconds. *)
Definition DateTime : Type := Z.

Inductive Expression : Type :=
| Eq (lhs : IdentifierExpression) (v : string)
| In (lhs : IdentifierExpression) (vs : list string)
| Gt (lhs : IdentifierExpression) (v : DateTime)
| Like (lhs : IdentifierExpression) (pattern : string)
| NotLike (lhs : IdentifierExpression) (pattern : string)
| And (es : list Expression)
| Or (es : list Expression).

Inductive OrderedExpression : Type :=
| Asc (i : IdentifierExpression)
| Desc (i : IdentifierExpression).

Record SelectDataset : Type := mkSelectDataset {
  dialect : string;
  from : string;
  where_ : list Expression;          (* joined with AND by goqu *)
  limit : option Z;                  (* the uint given to Limit *)
  offset : option Z;                 (* the uint given to Offset *)
  order : list OrderedExpression
}.

(** [goqu.Dialect(driver).From(table)] *)
Definition From (driver table : string) : SelectDataset :=
  mkSelectDataset driver table [] None None [].

Definition Where (q : SelectDataset) (e : Expression) : SelectDataset :=
  mkSelectDataset (dialect q) (from q) (where_ q ++ [e]) (limit q) (offset q) (order q).

Definition Limit (q : SelectDataset) (n : Z) : SelectDataset :=
  mkSelectDataset (dialect q) (from q) (where_ q) (Some n) (offset q) (order q).

Definition Offset (q : SelectDataset) (n : Z) : SelectDataset :=
  mkSelectDataset (dialect q) (from q) (where_ q) (limit q) (Some n) (order q).

Definition Order (q : SelectDataset) (o : OrderedExpression) : SelectDataset :=
  mkSelectDataset (dialect q) (from q) (where_ q) (limit q) (offset q) [o].

End goqu.

(** Go's [uint(n)] of an [int] [n], both 64 bits wide: negative values
    wrap around. *)
Definition uint (n : Z) : Z := n mod 2 ^ 64.

(** The direction constants of the sb package. *)
Module sb.
Definition ASC : string := "asc".
Definition DESC : string := "desc".
End sb.

(** Modelled from the spec: the constant [COLUMN_ID] is declared in a
    file that is not at hand; the table layout names the column id. *)
Definition COLUMN_ID : string := "id".

(** Modelled from the spec: the constant [COLUMN_RECORD_TYPE] is declared
    in a file that is not at hand; the table layout names the column
    type. *)
Definition COLUMN_RECORD_TYPE : string := "type".

(** Modelled from the spec: the constant [COLUMN_SOFT_DELETED_AT] is
    declared in a file that is not at hand; the table layout names the
    column soft_deleted_at. *)
Definition COLUMN_SOFT_DELETED_AT : string := "soft_deleted_at".

(** ** The query builder *)

Record recordQueryImplementation : Type := mkQuery {
  hasID : bool;
  id : string;
  hasIDList : bool;
  idList : list string;
  isTypeSet : bool;
  recordType : string;
  columns : list string;
  isCountOnly : bool;
  isSoftDeletedIncluded : bool;
  isLimitSet : bool;
  limit : Z;
  isOffsetSet : bool;
  offset : Z;
  isOrderBySet : bool;
  orderBy : string;
  payloadSearch : list string;
  payloadSearchNot : list string
}.

(** Fields that the literal of [NewRecordQuery] leaves out hold Go's zero
    value; a nil slice has length 0, like the empty one. *)
Definition NewRecordQuery : recordQueryImplementation :=
  {| hasID := false; id := ""; hasIDList := false; idList := [];
     isTypeSet := false; recordType := ""; columns := [];
     isCountOnly := false; isSoftDeletedIncluded := false;
     isLimitSet := false; limit := 0; isOffsetSet := false; offset := 0;
     isOrderBySet := false; orderBy := "";
     payloadSearch := []; payloadSearchNot := [] |}.

Definition RecordQuery : recordQueryImplementation := NewRecordQuery.

Section Accessors.
Variable o : recordQueryImplementation.

Definition GetColumns : list string := columns o.
Definition IsCountOnly : bool := isCountOnly o.
Definition IsIDSet : bool := hasID o.
Definition GetID : string := id o.
Definition IsIDListSet : bool := hasIDList o.
Definition GetIDList : list string := idList o.
Definition IsSoftDeletedIncluded : bool := isSoftDeletedIncluded o.
Definition IsLimitSet : bool := isLimitSet o.
Definition GetLimit : Z := limit o.
Definition IsOffsetSet : bool := isOffsetSet o.
Definition GetOffset : Z := offset o.
Definition IsOrderBySet : bool := isOrderBySet o.
Definition GetOrderBy : string := orderBy o.
Definition IsTypeSet : bool := isTypeSet o.
Definition GetType : string := recordType o.
Definition GetPayloadSearch : list string := payloadSearch o.
Definition GetPayloadSearchNot : list string := payloadSearchNot o.

(** The setters assign to the receiver and return it: each gives the
    query after the call. *)
Definition SetColumns (cols : list string) : recordQueryImplementation :=
  mkQuery (hasID o) (id o) (hasIDList o) (idList o) (isTypeSet o) (recordType o)
    cols (isCountOnly o) (isSoftDeletedIncluded o) (isLimitSet o) (limit o)
    (isOffsetSet o) (offset o) (isOrderBySet o) (orderBy o)
    (payloadSearch o) (payloadSearchNot o).

Definition SetCountOnly (countOnly : bool) : recordQueryImplementation :=
  mkQuery (hasID o) (id o) (hasIDList o) (idList o) (isTypeSet o) (recordType o)
    (columns o) countOnly (isSoftDeletedIncluded o) (isLimitSet o) (limit o)
    (isOffsetSet o) (offset o) (isOrderBySet o) (orderBy o)
    (payloadSearch o) (payloadSearchNot o).

Definition SetID (id' : string) : recordQueryImplementation :=
  mkQuery (if id' =? "" then false else true) id'
    (hasIDList o) (idList o) (isTypeSet o) (recordType o)
    (columns o) (isCountOnly o) (isSoftDeletedIncluded o) (isLimitSet o) (limit o)
    (isOffsetSet o) (offset o) (isOrderBySet o) (orderBy o)
    (payloadSearch o) (payloadSearchNot o).

Definition SetIDList (ids : list string) : recordQueryImplementation :=
  mkQuery (hasID o) (id o) true ids (isTypeSet o) (recordType o)
    (columns o) (isCountOnly o) (isSoftDeletedIncluded o) (isLimitSet o) (limit o)
    (isOffsetSet o) (offset o) (isOrderBySet o) (orderBy o)
    (payloadSearch o) (payloadSearchNot o).

Definition SetSoftDeletedIncluded (softDeletedIncluded : bool) : recordQueryImplementation :=
  mkQuery (hasID o) (id o) (hasIDList o) (idList o) (isTypeSet o) (recordType o)
    (columns o) (isCountOnly o) softDeletedIncluded (isLimitSet o) (limit o)
    (isOffsetSet o) (offset o) (isOrderBySet o) (orderBy o)
    (payloadSearch o) (payloadSearchNot o).

Definition SetLimit (limit' : Z) : recordQueryImplementation :=
  mkQuery (hasID o) (id o) (hasIDList o) (idList o) (isTypeSet o) (recordType o)
    (columns o) (isCountOnly o) (isSoftDeletedIncluded o) true limit'
    (isOffsetSet o) (offset o) (isOrderBySet o) (orderBy o)
    (payloadSearch o) (payloadSearchNot o).

Definition SetOffset (offset' : Z) : recordQueryImplementation :=
  mkQuery (hasID o) (id o) (hasIDList o) (idList o) (isTypeSet o) (recordType o)
    (columns o) (isCountOnly o) (isSoftDeletedIncluded o) (isLimitSet o) (limit o)
    true offset' (isOrderBySet o) (orderBy o)
    (payloadSearch o) (payloadSearchNot o).

Definition SetOrderBy (orderBy' : string) : recordQueryImplementation :=
  mkQuery (hasID o) (id o) (hasIDList o) (idList o) (isTypeSet o) (recordType o)
    (columns o) (isCountOnly o) (isSoftDeletedIncluded o) (isLimitSet o) (limit o)
    (isOffsetSet o) (offset o) true orderBy'
    (payloadSearch o) (payloadSearchNot o).

Definition SetType (recordType' : string) : recordQueryImplementation :=
  mkQuery (hasID o) (id o) (hasIDList o) (idList o) true recordType'
    (columns o) (isCountOnly o) (isSoftDeletedIncluded o) (isLimitSet o) (limit o)
    (isOffsetSet o) (offset o) (isOrderBySet o) (orderBy o)
    (payloadSearch o) (payloadSearchNot o).

Definition AddPayloadSearch (needle : string) : recordQueryImplementation :=
  mkQuery (hasID o) (id o) (hasIDList o) (idList o) (isTypeSet o) (recordType o)
    (columns o) (isCountOnly o) (isSoftDeletedIncluded o) (isLimitSet o) (limit o)
    (isOffsetSet o) (offset o) (isOrderBySet o) (orderBy o)
    (payloadSearch o ++ [needle]) (payloadSearchNot o).

Definition AddPayloadSearchNot (needle : string) : recordQueryImplementation :=
  mkQuery (hasID o) (id o) (hasIDList o) (idList o) (isTypeSet o) (recordType o)
    (columns o) (isCountOnly o) (isSoftDeletedIncluded o) (isLimitSet o) (limit o)
    (isOffsetSet o) (offset o) (isOrderBySet o) (orderBy o)
    (payloadSearch o) (payloadSearchNot o ++ [needle]).

End Accessors.

(** ** Validation *)

(** An [error] is the message given to [errors.New]; [None] is nil. *)
Definition error : Type := string.

Definition Validate (o : recordQueryImplementation) : option error :=
  if IsIDSet o && (GetID o =? "") then Some "id is required"
  else if IsIDListSet o && (length (GetIDList o) =? 0)%nat
  then Some "id list is required"
  else
    (* sanitize empty strings out of the list *)
    let filtered :=
      filter (fun id => negb (strings.TrimSpace id =? "")) (GetIDList o) in
    if IsIDListSet o && negb (length filtered =? length (GetIDList o))%nat
    then Some "id list contains empty strings"
    else if IsTypeSet o && (GetType o =? "") then Some "type is required"
    else None.

(** ** The statement compiler *)

(** applyPayloadWhere applies payload include/exclude conditions. *)
Definition applyPayloadWhere (o : recordQueryImplementation)
    (q : goqu.SelectDataset) : goqu.SelectDataset :=
  let conds : list goqu.Expression := [] in
  let conds :=
    if (0 <? length (payloadSearch o))%nat
    then (conds ++ [goqu.Or (map (fun v => goqu.Like (goqu.I "payload") ("%" ++ v ++ "%"))
                               (payloadSearch o))])%list
    else conds in
  let conds :=
    if (0 <? length (payloadSearchNot o))%nat
    then (conds ++ map (fun v => goqu.NotLike (goqu.I "payload") ("%" ++ v ++ "%"))
                       (payloadSearchNot o))%list
    else conds in
  if (length conds =? 0)%nat then q else goqu.Where q (goqu.And conds).

(** applyPagination applies limit/offset when not count-only.  It calls
    [SetLimit] on its receiver, so the query after the call is returned
    along with the dataset. *)
Definition applyPagination (o : recordQueryImplementation)
    (q : goqu.SelectDataset) : recordQueryImplementation * goqu.SelectDataset :=
  let o := if IsOffsetSet o && negb (IsLimitSet o)
           then SetLimit o 10 (* offset requires limit *)
           else o in
  if IsCountOnly o then (o, q)
  else
    let q := if IsLimitSet o then goqu.Limit q (uint (GetLimit o)) else q in
    let q := if IsOffsetSet o then goqu.Offset q (uint (GetOffset o)) else q in
    (o, q).

(** applyOrderBy applies ordering if set. *)
Definition applyOrderBy (o : recordQueryImplementation)
    (q : goqu.SelectDataset) (defaultOrder : string) : goqu.SelectDataset :=
  if negb (IsOrderBySet o) then q
  else if strings.EqualFold defaultOrder sb.ASC
  then goqu.Order q (goqu.Asc (goqu.I (GetOrderBy o)))
  else goqu.Order q (goqu.Desc (goqu.I (GetOrderBy o))).

(** selectedColumns returns any requested columns. *)
Definition selectedColumns (o : recordQueryImplementation) : list string :=
  GetColumns o.

(** softDeletedExpr builds the soft-deleted filter expression; [now] is
    the reading of the clock, [carbon.Now(carbon.UTC)]. *)
Definition softDeletedExpr (now : goqu.DateTime) : goqu.Expression :=
  goqu.Gt (goqu.C COLUMN_SOFT_DELETED_AT) now.

(** The three results of [ToSelectDataset]. *)
Record Compiled : Type := mkCompiled {
  selectDataset : option goqu.SelectDataset;
  selected : list string;
  err : option error
}.

(** [ToSelectDataset] at clock reading [now]: the query after the call
    (the receiver is a pointer) and the results. *)
Definition ToSelectDataset (now : goqu.DateTime) (o : recordQueryImplementation)
    (driver table : string) : recordQueryImplementation * Compiled :=
  match Validate o with
  | Some e => (o, mkCompiled None [] (Some e))
  | None =>
    let q := goqu.From driver table in
    if IsSoftDeletedIncluded o
    then (o, mkCompiled (Some q) [] None) (* soft deleted sites requested specifically *)
    else
      (* Basic filters *)
      let q := if IsIDSet o
               then goqu.Where q (goqu.Eq (goqu.C COLUMN_ID) (GetID o))
               else q in
      let q :=
        if IsIDListSet o then
          (* sanitize empty strings out of the list *)
          let ids := filter (fun v => negb (strings.TrimSpace v =? "")) (GetIDList o) in
          if (0 <? length ids)%nat
          then goqu.Where q (goqu.In (goqu.C COLUMN_ID) ids)
          else q
        else q in
      (* Payload conditions *)
      let q := applyPayloadWhere o q in
      (* Pagination and ordering *)
      let (o, q) := applyPagination o q in
      let q := applyOrderBy o q sb.DESC in
      (* Selected columns *)
      let columns := selectedColumns o in
      (* Soft-delete and type constraints *)
      let q := if IsTypeSet o
               then goqu.Where q (goqu.Eq (goqu.C COLUMN_RECORD_TYPE) (GetType o))
               else q in
      (o, mkCompiled (Some (goqu.Where q (softDeletedExpr now))) columns None)
  end.

(** ** Sequences of calls on a fresh query *)

Inductive Call : Type :=
| CallSetColumns (cols : list string)
| CallSetCountOnly (countOnly : bool)
| CallSetID (id : string)
| CallSetIDList (ids : list string)
| CallSetSoftDeletedIncluded (softDeletedIncluded : bool)
| CallSetLimit (limit : Z)
| CallSetOffset (offset : Z)
| CallSetOrderBy (orderBy : string)
| CallSetType (recordType : string)
| CallAddPayloadSearch (needle : string)
| CallAddPayloadSearchNot (needle : string)
| CallValidate
| CallToSelectDataset (now : goqu.DateTime) (driver table : string).

(** The query after one call of the public interface (the getters and
    [Validate] leave it as it is). *)
Definition call (o : recordQueryImplementation) (c : Call) : recordQueryImplementation :=
  match c with
  | CallSetColumns cols => SetColumns o cols
  | CallSetCountOnly b => SetCountOnly o b
  | CallSetID s => SetID o s
  | CallSetIDList ids => SetIDList o ids
  | CallSetSoftDeletedIncluded b => SetSoftDeletedIncluded o b
  | CallSetLimit n => SetLimit o n
  | CallSetOffset n => SetOffset o n
  | CallSetOrderBy s => SetOrderBy o s
  | CallSetType s => SetType o s
  | CallAddPayloadSearch s => AddPayloadSearch o s
  | CallAddPayloadSearchNot s => AddPayloadSearchNot o s
  | CallValidate => o
  | CallToSelectDataset now driver table => fst (ToSelectDataset now o driver table)
  end.

(** The query built by a sequence of calls on [NewRecordQuery()]. *)
Definition built (cs : list Call) : recordQueryImplementation :=
  fold_left call cs NewRecordQuery.

(** A call other than [SetIDList]. *)
Definition keeps_id_list (c : Call) : bool :=
  match c with CallSetIDList _ => false | _ => true end.

(** A call other than [SetID]. *)
Definition keeps_id (c : Call) : bool :=
  match c with CallSetID _ => false | _ => true end.

(** ** Rows and what a compiled statement selects *)

(** A row of the table, with the columns of the table layout. *)
Record Row : Type := mkRow {
  row_id : string;
  row_type : string;
  row_payload : string;
  row_memo : string;
  row_metas : string;
  row_created_at : goqu.DateTime;
  row_updated_at : goqu.DateTime;
  row_soft_deleted_at : goqu.DateTime
}.

Definition text_column (r : Row) (col : string) : option string :=
  if col =? COLUMN_ID then Some (row_id r)
  else if col =? COLUMN_RECORD_TYPE then Some (row_type r)
  else if col =? "payload" then Some (row_payload r)
  else if col =? "memo" then Some (row_memo r)
  else if col =? "metas" then Some (row_metas r)
  else None.

Definition time_column (r : Row) (col : string) : option goqu.DateTime :=
  if col =? "created_at" then Some (row_created_at r)
  else if col =? "updated_at" then Some (row_updated_at r)
  else if col =? COLUMN_SOFT_DELETED_AT then Some (row_soft_deleted_at r)
  else None.

(** SQL's LIKE with its two wildcards, byte by byte (collations are not
    modelled). *)
Fixpoint like (p : list ascii) : list ascii -> bool :=
  match p with
  | [] => fun s => match s with [] => true | _ :: _ => false end
  | c :: p' =>
    if Ascii.eqb c "%" then
      fix skip (s : list ascii) : bool :=
        like p' s || match s with [] => false | _ :: s' => skip s' end
    else if Ascii.eqb c "_" then
      fun s => match s with [] => false | _ :: s' => like p' s' end
    else
      fun s => match s with [] => false | d :: s' => Ascii.eqb c d && like p' s' end
  end.

Definition sql_like (s pattern : string) : bool :=
  like (list_ascii_of_string pattern) (list_ascii_of_string s).

(** Whether row [r] satisfies expression [e]. *)
Fixpoint holds (r : Row) (e : goqu.Expression) : bool :=
  match e with
  | goqu.Eq lhs v =>
    match text_column r (goqu.name lhs) with Some s => s =? v | None => false end
  | goqu.In lhs vs =>
    match text_column r (goqu.name lhs) with
    | Some s => existsb (String.eqb s) vs
    | None => false
    end
  | goqu.Gt lhs v =>
    match time_column r (goqu.name lhs) with Some t => (v <? t)%Z | None => false end
  | goqu.Like lhs pat =>
    match text_column r (goqu.name lhs) with Some s => sql_like s pat | None => false end
  | goqu.NotLike lhs pat =>
    match text_column r (goqu.name lhs) with Some s => negb (sql_like s pat) | None => false end
  | goqu.And es => forallb (holds r) es
  | goqu.Or es => existsb (holds r) es
  end.

(** The WHERE clauses of a dataset are joined with AND. *)
Definition selects (q : goqu.SelectDataset) (r : Row) : bool :=
  forallb (holds r) (goqu.where_ q).

(** The data model's words: a record is soft-deleted iff its softDeletedAt
    is strictly less than now. *)
Definition spec_soft_deleted (now : goqu.DateTime) (r : Row) : bool :=
  (row_soft_deleted_at r <? now)%Z.

(** ** Predicates of a statement, by their shape *)

(** [p] holds of [e] or of an expression nested in it. *)
Fixpoint anywhere (p : goqu.Expression -> bool) (e : goqu.Expression) : bool :=
  p e ||
  match e with
  | goqu.And es => existsb (anywhere p) es
  | goqu.Or es => existsb (anywhere p) es
  | _ => false
  end.

(** An equality on the given column. *)
Definition eq_on (col : string) (e : goqu.Expression) : bool :=
  match e with
  | goqu.Eq lhs _ => goqu.name lhs =? col
  | _ => false
  end.

(** The statement has an [id = value] predicate somewhere. *)
Definition has_id_predicate (q : goqu.SelectDataset) : bool :=
  existsb (anywhere (eq_on COLUMN_ID)) (goqu.where_ q).

(** The statement has the predicate [type = v] among its WHERE clauses. *)
Definition has_type_predicate (v : string) (q : goqu.SelectDataset) : Prop :=
  List.In (goqu.Eq (goqu.C COLUMN_RECORD_TYPE) v) (goqu.where_ q).

(** ** The steps of the compiler, one by one *)

(** The first check of [Validate] does not fire. *)
Definition id_check_passes (o : recordQueryImplementation) : Prop :=
  IsIDSet o && (GetID o =? "") = false.

(** The clauses that the steps of [ToSelectDataset] add, one list per
    step. *)
Definition id_clause (o : recordQueryImplementation) : list goqu.Expression :=
  if IsIDSet o then [goqu.Eq (goqu.C COLUMN_ID) (GetID o)] else [].

Definition id_list_clause (o : recordQueryImplementation) : list goqu.Expression :=
  if IsIDListSet o then
    let ids := filter (fun v => negb (strings.TrimSpace v =? "")) (GetIDList o) in
    if (0 <? length ids)%nat then [goqu.In (goqu.C COLUMN_ID) ids] else []
  else [].

Definition payload_like (v : string) : goqu.Expression :=
  goqu.Like (goqu.I "payload") ("%" ++ v ++ "%").

Definition payload_not_like (v : string) : goqu.Expression :=
  goqu.NotLike (goqu.I "payload") ("%" ++ v ++ "%").

Definition payload_conds (o : recordQueryImplementation) : list goqu.Expression :=
  match payloadSearch o with
  | [] => []
  | _ :: _ => [goqu.Or (map payload_like (payloadSearch o))]
  end ++ map payload_not_like (payloadSearchNot o).

Definition payload_clause (o : recordQueryImplementation) : list goqu.Expression :=
  match payload_conds o with
  | [] => []
  | _ :: _ => [goqu.And (payload_conds o)]
  end.

Definition type_clause (o : recordQueryImplementation) : list goqu.Expression :=
  if IsTypeSet o then [goqu.Eq (goqu.C COLUMN_RECORD_TYPE) (GetType o)] else [].

Definition default_where (now : goqu.DateTime) (o : recordQueryImplementation)
  : list goqu.Expression :=
  id_clause o ++ id_list_clause o ++ payload_clause o ++ type_clause o
  ++ [softDeletedExpr now].

(** The query as [applyPagination] leaves it. *)
Definition with_default_limit (o : recordQueryImplementation)
  : recordQueryImplementation :=
  if IsOffsetSet o && negb (IsLimitSet o) then SetLimit o 10 else o.

Definition page_limit (o : recordQueryImplementation) : option Z :=
  if IsCountOnly o then None
  else if IsOffsetSet o && negb (IsLimitSet o) then Some 10%Z
  else if IsLimitSet o then Some (uint (GetLimit o))
  else None.

Definition page_offset (o : recordQueryImplementation) : option Z :=
  if IsCountOnly o then None
  else if IsOffsetSet o then Some (uint (GetOffset o))
  else None.

Definition ordering (o : recordQueryImplementation) : list goqu.OrderedExpression :=
  if IsOrderBySet o then [goqu.Desc (goqu.I (GetOrderBy o))] else [].

(** ** The queries the examples below run on *)

Definition sample_row (payload : string) (soft_deleted_at : goqu.DateTime) : Row :=
  mkRow "rec_1" "person" payload "" "{}" 50%Z 60%Z soft_deleted_at.

(** [NewRecordQuery().SetType("person").SetSoftDeletedIncluded(true)] *)
Definition deleted_persons : recordQueryImplementation :=
  SetSoftDeletedIncluded (SetType NewRecordQuery "person") true.

(** [NewRecordQuery().SetOffset(5).SetSoftDeletedIncluded(true)] *)
Definition deleted_from_fifth : recordQueryImplementation :=
  SetSoftDeletedIncluded (SetOffset NewRecordQuery 5) true.

(** [NewRecordQuery().AddPayloadSearch("x").AddPayloadSearchNot("z").SetSoftDeletedIncluded(true)] *)
Definition deleted_with_x_without_z : recordQueryImplementation :=
  SetSoftDeletedIncluded
    (AddPayloadSearchNot (AddPayloadSearch NewRecordQuery "x") "z") true.

(** [NewRecordQuery().SetOffset(5).SetType("")] *)
Definition untyped_from_fifth : recordQueryImplementation :=
  SetType (SetOffset NewRecordQuery 5) "".

(** [NewRecordQuery().SetIDList([]string{"", " "})] *)
Definition blanks_only : recordQueryImplementation :=
  SetIDList NewRecordQuery [""; " "].

(** [NewRecordQuery().SetIDList([]string{"a", "", "b"})] *)
Definition mixed_blank : recordQueryImplementation :=
  SetIDList NewRecordQuery ["a"; ""; "b"].

(** [NewRecordQuery().SetLimit(20).SetOffset(5).SetCountOnly(true)] *)
Definition counted_page : recordQueryImplementation :=
  SetCountOnly (SetOffset (SetLimit NewRecordQuery 20) 5) true.

(** [NewRecordQuery().SetOffset(5).SetCountOnly(true)] *)
Definition counted_from_fifth : recordQueryImplementation :=
  SetCountOnly (SetOffset NewRecordQuery 5) true.

(** A live record of another type: its soft-delete time is the far
    future, 9999-12-31 23:59:59. *)
Definition order_row : Row :=
  mkRow "rec_2" "order" "{}" "" "{}" 50%Z 60%Z 253402300799%Z.

(** ** What the filters of a query ask of a row *)

(** A call that assigns a field [Validate] reads. *)
Definition touches_validation (c : Call) : bool :=
  match c with
  | CallSetID _ | CallSetIDList _ | CallSetType _ => true
  | _ => false
  end.

(** The needles that the calls of [AddPayloadSearch] add, in order. *)
Definition needles (cs : list Call) : list string :=
  flat_map (fun c => match c with CallAddPayloadSearch s => [s] | _ => [] end) cs.

(** The needles that the calls of [AddPayloadSearchNot] add, in order. *)
Definition needles_not (cs : list Call) : list string :=
  flat_map (fun c => match c with CallAddPayloadSearchNot s => [s] | _ => [] end) cs.

(** The payload of [r] has one of the must-contain needles, if there is
    any, and none of the must-not-contain ones. *)
Definition payload_ok (o : recordQueryImplementation) (r : Row) : bool :=
  match GetPayloadSearch o with
  | [] => true
  | _ :: _ =>
    existsb (fun v => sql_like (row_payload r) ("%" ++ v ++ "%")) (GetPayloadSearch o)
  end
  && forallb (fun v => negb (sql_like (row_payload r) ("%" ++ v ++ "%")))
             (GetPayloadSearchNot o).

(** Row [r] passes every filter set on [o] and is not deleted at [now]. *)
Definition matches (now : goqu.DateTime) (o : recordQueryImplementation)
    (r : Row) : bool :=
  (if IsIDSet o then row_id r =? GetID o else true)
  && (if IsIDListSet o then existsb (String.eqb (row_id r)) (GetIDList o) else true)
  && payload_ok o r
  && (if IsTypeSet o then row_type r =? GetType o else true)
  && (now <? row_soft_deleted_at r)%Z.

(** [NewRecordQuery().SetType("person").SetIDList([]string{"rec_1", "rec_3"})] *)
Definition two_persons : recordQueryImplementation :=
  SetIDList (SetType NewRecordQuery "person") ["rec_1"; "rec_3"].

(** * Properties *)

Example blank_empty : blank "" = true.
Proof. reflexivity. Qed.

Example blank_spaces : blank "  " = true.
Proof. vm_compute. reflexivity. Qed.

Example blank_rec_1 : blank " rec_1 " = false.
Proof. vm_compute. reflexivity. Qed.

(** ** Lists *)

Lemma filter_length_le {A : Type} (p : A -> bool) (l : list A) :
  (length (filter p l) <= length l)%nat.
Proof.
  induction l as [|x l IH]; simpl; [lia|].
  destruct (p x); simpl; lia.
Qed.

(** An entry that the filter rejects makes the filtered list shorter. *)
Lemma filter_length_lt {A : Type} (p : A -> bool) (l : list A) (x : A) :
  List.In x l -> p x = false -> (length (filter p l) < length l)%nat.
Proof.
  induction l as [|y l IH]; simpl; [tauto|].
  intros [->|Hin] Hx.
  - rewrite Hx. pose proof (filter_length_le p l). lia.
  - specialize (IH Hin Hx). destruct (p y); simpl; lia.
Qed.

Lemma filter_none {A : Type} (p : A -> bool) (l : list A) :
  forallb (fun x => negb (p x)) l = true -> filter p l = [].
Proof.
  induction l as [|x l IH]; simpl; [reflexivity|].
  intros H. apply andb_true_iff in H as [Hx Hl].
  destruct (p x); [discriminate|]. auto.
Qed.

(** ** Validation *)

Lemma Validate_id_required (o : recordQueryImplementation) :
  Validate o = Some "id is required" <-> IsIDSet o && (GetID o =? "") = true.
Proof.
  unfold Validate.
  destruct (IsIDSet o && (GetID o =? "")); [tauto|].
  split; [|discriminate].
  destruct (IsIDListSet o && _); [discriminate|].
  destruct (IsIDListSet o && _); [discriminate|].
  destruct (IsTypeSet o && _); discriminate.
Qed.

Lemma Validate_empty_list (o : recordQueryImplementation) :
  id_check_passes o -> IsIDListSet o = true -> GetIDList o = [] ->
  Validate o = Some "id list is required".
Proof.
  unfold id_check_passes, Validate. intros -> -> ->. reflexivity.
Qed.

Lemma Validate_blank_entry (o : recordQueryImplementation) (b : string) :
  id_check_passes o -> IsIDListSet o = true ->
  List.In b (GetIDList o) -> blank b = true ->
  Validate o = Some "id list contains empty strings".
Proof.
  unfold id_check_passes, Validate. intros -> -> Hin Hb.
  destruct (GetIDList o) as [|x l] eqn:El; [destruct Hin|].
  pose proof (filter_length_lt (fun id => negb (strings.TrimSpace id =? ""))
                (x :: l) b Hin) as Hlt.
  unfold blank in Hb. cbv beta in Hlt. rewrite Hb in Hlt. specialize (Hlt eq_refl).
  replace (length (x :: l) =? 0)%nat with false by reflexivity.
  apply Nat.lt_neq, Nat.eqb_neq in Hlt. rewrite Hlt. reflexivity.
Qed.

Lemma Validate_without_list (o : recordQueryImplementation) :
  IsIDListSet o = false ->
  Validate o <> Some "id list is required" /\
  Validate o <> Some "id list contains empty strings".
Proof.
  unfold Validate. intros ->. cbn [andb].
  destruct (IsIDSet o && _); [split; discriminate|].
  destruct (IsTypeSet o && _); split; discriminate.
Qed.

(** What a query that passes validation looks like. *)
Lemma Validate_None (o : recordQueryImplementation) :
  Validate o = None ->
  id_check_passes o /\
  (IsIDListSet o = true ->
     GetIDList o <> [] /\
     filter (fun id => negb (strings.TrimSpace id =? "")) (GetIDList o) = GetIDList o) /\
  IsTypeSet o && (GetType o =? "") = false.
Proof.
  unfold Validate, id_check_passes.
  destruct (IsIDSet o && _); [discriminate|].
  destruct (IsIDListSet o) eqn:EL; cbn [andb].
  - destruct (GetIDList o) as [|x l] eqn:El; [discriminate|].
    replace (length (x :: l) =? 0)%nat with false by reflexivity.
    destruct (Nat.eqb_spec
                (length (filter (fun id => negb (strings.TrimSpace id =? "")) (x :: l)))
                (length (x :: l))) as [E|E]; cbn [negb]; [|discriminate].
    destruct (IsTypeSet o && _); [discriminate|].
    intros _. split; [reflexivity|]. split; [|reflexivity].
    intros _. split; [discriminate|].
    clear -E. revert E. generalize (x :: l). intros l0.
    induction l0 as [|y l0 IH]; simpl; [reflexivity|].
    destruct (negb (strings.TrimSpace y =? "")); simpl; intros E.
    + f_equal. apply IH. lia.
    + pose proof (filter_length_le
                    (fun id => negb (strings.TrimSpace id =? "")) l0). lia.
  - destruct (IsTypeSet o && _); [discriminate|].
    intros _. split; [reflexivity|]. split; [discriminate|reflexivity].
Qed.

(** ** The setters and the ID flag *)

(** Whenever the ID flag is set the stored ID is not empty. *)
Lemma SetID_id_check (o : recordQueryImplementation) (s : string) :
  id_check_passes (SetID o s).
Proof.
  unfold id_check_passes, SetID, IsIDSet, GetID. simpl.
  destruct (s =? ""); reflexivity.
Qed.

Lemma ToSelectDataset_query (now : goqu.DateTime) (o : recordQueryImplementation)
    (driver table : string) :
  fst (ToSelectDataset now o driver table) = o \/
  fst (ToSelectDataset now o driver table) = SetLimit o 10.
Proof.
  unfold ToSelectDataset.
  destruct (Validate o); [left; reflexivity|].
  destruct (IsSoftDeletedIncluded o); [left; reflexivity|].
  match goal with |- context [applyPagination o ?q] => generalize q end.
  intros q. unfold applyPagination.
  destruct (IsOffsetSet o && negb (IsLimitSet o));
    [right | left];
    match goal with |- context [if ?c then _ else _] => destruct c end;
    reflexivity.
Qed.

Lemma call_id_check (o : recordQueryImplementation) (c : Call) :
  id_check_passes o -> id_check_passes (call o c).
Proof.
  intros H. destruct c; try exact H; simpl.
  - apply SetID_id_check.
  - destruct (ToSelectDataset_query now o driver table) as [-> | ->]; exact H.
Qed.

Lemma built_id_check (cs : list Call) : id_check_passes (built cs).
Proof.
  unfold built.
  assert (G : forall o, id_check_passes o -> id_check_passes (fold_left call cs o)).
  { induction cs as [|c cs IH]; simpl; intros o Ho; [exact Ho|].
    apply IH, call_id_check, Ho. }
  apply G. reflexivity.
Qed.

(** C10. The error "id is required" cannot be reached through the public
    interface: after any sequence of calls on a fresh query the state "ID
    flag set and ID empty" does not hold, since [SetID] with the empty
    string clears the flag and with any other string stores that string,
    so [Validate] never returns that error. *)
Theorem id_is_required_unreachable (cs : list Call) :
  id_check_passes (built cs) /\ Validate (built cs) <> Some "id is required".
Proof.
  split; [apply built_id_check|].
  intros H. apply Validate_id_required in H.
  rewrite (built_id_check cs) in H. discriminate.
Qed.

Lemma id_is_required_unreachable_witness :
  Validate (built [CallSetID "rec_1"; CallSetID ""; CallSetType "person"])
  <> Some "id is required".
Proof.
  apply (id_is_required_unreachable
           [CallSetID "rec_1"; CallSetID ""; CallSetType "person"]).
Defined.

Lemma call_keeps_id_list_flag (o : recordQueryImplementation) (c : Call) :
  keeps_id_list c = true -> IsIDListSet (call o c) = IsIDListSet o.
Proof.
  destruct c; try reflexivity; [discriminate|].
  intros _. simpl.
  destruct (ToSelectDataset_query now o driver table) as [-> | ->]; reflexivity.
Qed.

(** A query on which [SetIDList] was never called has the flag clear. *)
Lemma built_without_SetIDList (cs : list Call) :
  forallb keeps_id_list cs = true -> IsIDListSet (built cs) = false.
Proof.
  unfold built.
  assert (G : forall o, forallb keeps_id_list cs = true ->
                        IsIDListSet (fold_left call cs o) = IsIDListSet o).
  { induction cs as [|c cs IH]; simpl; intros o H; [reflexivity|].
    apply andb_true_iff in H as [Hc Hcs].
    rewrite IH by exact Hcs. apply call_keeps_id_list_flag, Hc. }
  intros H. rewrite G by exact H. reflexivity.
Qed.

(** C4. [Validate] tells the two bad ID lists apart, the first failing
    check deciding.  On a query on which the earlier ID check does not
    fire, a set but empty list gives "id list is required" and a set list
    that mixes a blank entry with real ones gives "id list contains empty
    strings"; a query whose ID-list flag is clear gets neither error.
    Every query built by calls of the public interface is one on which
    the ID check does not fire, and if [SetIDList] was not among the
    calls its flag is clear. *)
Theorem Validate_tells_empty_from_blank :
  (forall o : recordQueryImplementation,
     id_check_passes o ->
     (IsIDListSet o = true -> GetIDList o = [] ->
      Validate o = Some "id list is required") /\
     (IsIDListSet o = true ->
      (exists b, List.In b (GetIDList o) /\ blank b = true) ->
      (exists x, List.In x (GetIDList o) /\ blank x = false) ->
      Validate o = Some "id list contains empty strings") /\
     (IsIDListSet o = false ->
      Validate o <> Some "id list is required" /\
      Validate o <> Some "id list contains empty strings")) /\
  (forall cs : list Call, id_check_passes (built cs)) /\
  (forall cs : list Call,
     forallb keeps_id_list cs = true -> IsIDListSet (built cs) = false).
Proof.
  split; [|split; [apply built_id_check | apply built_without_SetIDList]].
  intros o Hid. split; [|split].
  - intros Hset Hnil. apply Validate_empty_list; assumption.
  - intros Hset [b [Hin Hb]] _. apply (Validate_blank_entry o b); assumption.
  - apply Validate_without_list.
Qed.

Lemma Validate_tells_empty_from_blank_witness :
  Validate (SetIDList NewRecordQuery []) = Some "id list is required" /\
  Validate mixed_blank = Some "id list contains empty strings" /\
  Validate NewRecordQuery <> Some "id list is required".
Proof.
  split; [|split].
  - apply (proj1 Validate_tells_empty_from_blank (SetIDList NewRecordQuery []));
      reflexivity.
  - apply (proj1 Validate_tells_empty_from_blank mixed_blank); try reflexivity.
    + exists ""%string. split; [simpl; tauto | reflexivity].
    + exists "a"%string. split; [simpl; tauto | vm_compute; reflexivity].
  - apply (proj1 Validate_tells_empty_from_blank NewRecordQuery); reflexivity.
Defined.

(** C2, as the code has it.  A list of blanks only is not let through:
    here [Validate] fails although every entry of the list is blank. *)
Lemma blanks_only_fails_validation :
  IsIDListSet blanks_only = true /\
  GetIDList blanks_only <> [] /\
  forallb blank (GetIDList blanks_only) = true /\
  Validate blanks_only <> None.
Proof.
  split; [reflexivity|]. split; [discriminate|]. split; [vm_compute; reflexivity|].
  vm_compute. discriminate.
Qed.

(** C2, amended.  On a query whose ID check passes and whose ID list is
    set to a non-empty list of blank entries only, [Validate] fails with
    "id list contains empty strings" and [ToSelectDataset] returns that
    error, no statement, and leaves the query as it was; stripping the
    blanks leaves no ID at all. *)
Theorem blank_id_list_is_rejected (o : recordQueryImplementation) :
  id_check_passes o -> IsIDListSet o = true -> GetIDList o <> [] ->
  forallb blank (GetIDList o) = true ->
  Validate o = Some "id list contains empty strings" /\
  (forall now driver table,
     ToSelectDataset now o driver table =
     (o, mkCompiled None [] (Some "id list contains empty strings"))) /\
  filter (fun v => negb (strings.TrimSpace v =? "")) (GetIDList o) = [].
Proof.
  intros Hid Hset Hne Hall.
  assert (HV : Validate o = Some "id list contains empty strings").
  { destruct (GetIDList o) as [|x l] eqn:El; [congruence|].
    apply (Validate_blank_entry o x); try assumption.
    - rewrite El. left. reflexivity.
    - simpl in Hall. apply andb_true_iff in Hall. tauto. }
  split; [exact HV|]. split.
  - intros now driver table. unfold ToSelectDataset. rewrite HV. reflexivity.
  - apply filter_none. rewrite <- Hall.
    generalize (GetIDList o). intros l.
    induction l as [|x l IH]; simpl; [reflexivity|].
    rewrite IH, negb_involutive. reflexivity.
Qed.

Lemma blank_id_list_is_rejected_witness :
  Validate blanks_only = Some "id list contains empty strings".
Proof.
  apply (blank_id_list_is_rejected blanks_only);
    [reflexivity | reflexivity | discriminate | vm_compute; reflexivity].
Defined.

(** ** The compiled statement in closed form *)


Lemma Where_clauses (q : goqu.SelectDataset) (es : list goqu.Expression) :
  fold_left goqu.Where es q =
  goqu.mkSelectDataset (goqu.dialect q) (goqu.from q) (goqu.where_ q ++ es)
    (goqu.limit q) (goqu.offset q) (goqu.order q).
Proof.
  revert q. induction es as [|e es IH]; intros q; simpl.
  - rewrite app_nil_r. destruct q; reflexivity.
  - rewrite IH. simpl. rewrite <- app_assoc. reflexivity.
Qed.

Lemma applyPayloadWhere_clause (o : recordQueryImplementation) (q : goqu.SelectDataset) :
  applyPayloadWhere o q = fold_left goqu.Where (payload_clause o) q.
Proof.
  unfold applyPayloadWhere, payload_clause, payload_conds, payload_like,
    payload_not_like.
  destruct (payloadSearch o) as [|x xs]; destruct (payloadSearchNot o) as [|y ys];
    reflexivity.
Qed.

Lemma applyPagination_page (o : recordQueryImplementation) (q : goqu.SelectDataset) :
  goqu.limit q = None -> goqu.offset q = None ->
  applyPagination o q =
  (with_default_limit o,
   goqu.mkSelectDataset (goqu.dialect q) (goqu.from q) (goqu.where_ q)
     (page_limit o) (page_offset o) (goqu.order q)).
Proof.
  intros Hl Ho. destruct q as [d f w l off ord]. simpl in Hl, Ho. subst l off.
  unfold applyPagination, with_default_limit, page_limit, page_offset.
  destruct o as [hid i hl il ts rt cols co sd ls lim os ofs obs ob ps pn].
  unfold IsOffsetSet, IsLimitSet, IsCountOnly, GetLimit, GetOffset, SetLimit.
  simpl. destruct os, ls, co; reflexivity.
Qed.

Lemma applyOrderBy_ordering (o : recordQueryImplementation) (q : goqu.SelectDataset) :
  goqu.order q = [] ->
  applyOrderBy o q sb.DESC =
  goqu.mkSelectDataset (goqu.dialect q) (goqu.from q) (goqu.where_ q)
    (goqu.limit q) (goqu.offset q) (ordering o).
Proof.
  intros Ho. destruct q as [d f w l off ord]. simpl in Ho. subst ord.
  unfold applyOrderBy, ordering.
  replace (strings.EqualFold sb.DESC sb.ASC) with false by reflexivity.
  destruct (IsOrderBySet o); reflexivity.
Qed.

Lemma with_default_limit_getters (o : recordQueryImplementation) :
  IsTypeSet (with_default_limit o) = IsTypeSet o /\
  GetType (with_default_limit o) = GetType o /\
  IsOrderBySet (with_default_limit o) = IsOrderBySet o /\
  GetOrderBy (with_default_limit o) = GetOrderBy o /\
  GetColumns (with_default_limit o) = GetColumns o.
Proof.
  unfold with_default_limit.
  destruct (IsOffsetSet o && negb (IsLimitSet o)); repeat split; reflexivity.
Qed.

(** When validation fails nothing is compiled and the query is left as it
    was. *)
Lemma ToSelectDataset_invalid (now : goqu.DateTime) (o : recordQueryImplementation)
    (driver table : string) (e : error) :
  Validate o = Some e ->
  ToSelectDataset now o driver table = (o, mkCompiled None [] (Some e)).
Proof. intros H. unfold ToSelectDataset. rewrite H. reflexivity. Qed.

(** With soft-deleted records included the compiler returns the bare
    dataset, before any other step. *)
Lemma ToSelectDataset_soft_deleted_included (now : goqu.DateTime)
    (o : recordQueryImplementation) (driver table : string) :
  Validate o = None -> IsSoftDeletedIncluded o = true ->
  ToSelectDataset now o driver table =
  (o, mkCompiled (Some (goqu.From driver table)) [] None).
Proof. intros HV HS. unfold ToSelectDataset. rewrite HV, HS. reflexivity. Qed.

(** Otherwise every step runs, and the statement is made of the clauses
    of the steps in their order. *)
Lemma ToSelectDataset_default (now : goqu.DateTime) (o : recordQueryImplementation)
    (driver table : string) :
  Validate o = None -> IsSoftDeletedIncluded o = false ->
  ToSelectDataset now o driver table =
  (with_default_limit o,
   mkCompiled
     (Some (goqu.mkSelectDataset driver table (default_where now o)
              (page_limit o) (page_offset o) (ordering o)))
     (GetColumns o) None).
Proof.
  intros HV HS. unfold ToSelectDataset. rewrite HV, HS.
  set (q1 := if IsIDSet o then _ else _).
  assert (E1 : q1 = fold_left goqu.Where (id_clause o) (goqu.From driver table)).
  { unfold q1, id_clause. destruct (IsIDSet o); reflexivity. }
  set (q2 := if IsIDListSet o then _ else _).
  assert (E2 : q2 = fold_left goqu.Where (id_list_clause o) q1).
  { unfold q2, id_list_clause. destruct (IsIDListSet o); [|reflexivity].
    cbv zeta. destruct (0 <? _)%nat; reflexivity. }
  rewrite applyPayloadWhere_clause.
  rewrite E2, E1, !Where_clauses. cbn [goqu.dialect goqu.from goqu.where_
    goqu.limit goqu.offset goqu.order goqu.From app].
  rewrite applyPagination_page by reflexivity.
  cbn [goqu.dialect goqu.from goqu.where_ goqu.limit goqu.offset goqu.order].
  rewrite applyOrderBy_ordering by reflexivity.
  cbn [goqu.dialect goqu.from goqu.where_ goqu.limit goqu.offset goqu.order].
  destruct (with_default_limit_getters o) as (Ht & Hty & Hob & Hobv & Hc).
  unfold selectedColumns. rewrite Ht, Hty, Hc.
  unfold ordering. rewrite Hob, Hobv. fold (ordering o).
  replace (if IsTypeSet o then _ else _) with
    (fold_left goqu.Where (type_clause o)
       (goqu.mkSelectDataset driver table
          ((id_clause o ++ id_list_clause o) ++ payload_clause o)
          (page_limit o) (page_offset o) (ordering o))).
  2:{ unfold type_clause. destruct (IsTypeSet o); reflexivity. }
  rewrite Where_clauses. unfold goqu.Where, default_where.
  cbn [goqu.dialect goqu.from goqu.where_ goqu.limit goqu.offset goqu.order].
  rewrite <- !app_assoc. reflexivity.
Qed.

(** ** Pagination *)

(** C8. A count-only query compiles to a statement without limit and
    without offset, whatever limit and offset were set on it; and it does
    compile as soon as it passes validation. *)
Theorem count_only_has_no_pagination (now : goqu.DateTime)
    (o : recordQueryImplementation) (driver table : string) :
  IsCountOnly o = true ->
  (forall q, selectDataset (snd (ToSelectDataset now o driver table)) = Some q ->
     goqu.limit q = None /\ goqu.offset q = None) /\
  (Validate o = None ->
     exists q, selectDataset (snd (ToSelectDataset now o driver table)) = Some q).
Proof.
  intros HC. destruct (Validate o) as [e|] eqn:HV.
  - rewrite (ToSelectDataset_invalid now o driver table e HV).
    split; [intros q H | intros H]; discriminate.
  - destruct (IsSoftDeletedIncluded o) eqn:HS.
    + rewrite ToSelectDataset_soft_deleted_included by assumption.
      split; [intros q H | intros _; eexists; reflexivity].
      injection H as <-. split; reflexivity.
    + rewrite ToSelectDataset_default by assumption.
      split; [intros q H | intros _; eexists; reflexivity].
      injection H as <-. unfold page_limit, page_offset. rewrite HC.
      split; reflexivity.
Qed.

Lemma count_only_has_no_pagination_witness :
  IsLimitSet counted_page = true /\ IsOffsetSet counted_page = true /\
  exists q,
    selectDataset (snd (ToSelectDataset 100%Z counted_page "sqlite" "records")) = Some q
    /\ goqu.limit q = None /\ goqu.offset q = None.
Proof.
  split; [reflexivity|]. split; [reflexivity|].
  destruct (count_only_has_no_pagination 100%Z counted_page "sqlite" "records" eq_refl)
    as [Hno Hsome].
  destruct (Hsome eq_refl) as [q Hq].
  exists q. split; [exact Hq | exact (Hno q Hq)].
Defined.

(** Where pagination is reached, an offset without a limit gets the limit
    10, and a limit that was set is the one used. *)
Lemma offset_gets_default_limit (now : goqu.DateTime)
    (o : recordQueryImplementation) (driver table : string) :
  Validate o = None -> IsSoftDeletedIncluded o = false ->
  IsCountOnly o = false -> IsOffsetSet o = true ->
  exists q,
    selectDataset (snd (ToSelectDataset now o driver table)) = Some q /\
    goqu.limit q = Some (if IsLimitSet o then uint (GetLimit o) else 10%Z) /\
    goqu.offset q = Some (uint (GetOffset o)).
Proof.
  intros HV HS HC HO. rewrite ToSelectDataset_default by assumption.
  eexists. split; [reflexivity|]. cbn [goqu.limit goqu.offset].
  unfold page_limit, page_offset. rewrite HC, HO.
  destruct (IsLimitSet o); split; reflexivity.
Qed.

(** C9, as the code has it.  A query with an offset and no limit that
    fails validation is not given a limit by [ToSelectDataset]. *)
Lemma failed_validation_sets_no_limit :
  IsOffsetSet untyped_from_fifth = true /\
  IsLimitSet untyped_from_fifth = false /\
  IsLimitSet (fst (ToSelectDataset 100%Z untyped_from_fifth "sqlite" "records")) = false.
Proof. repeat split. Qed.

(** C9, amended.  [ToSelectDataset] changes nothing of the query but its
    limit: the query after the call is the one before, or that one after
    [SetLimit(10)].  On a query that passes validation and does not ask
    for soft-deleted records, with an offset set and no limit set, it is
    the latter, count-only or not: the limit is then set, to 10.  A query
    that fails validation is left as it was. *)
Theorem ToSelectDataset_sets_default_limit (now : goqu.DateTime)
    (o : recordQueryImplementation) (driver table : string) :
  (fst (ToSelectDataset now o driver table) = o \/
   fst (ToSelectDataset now o driver table) = SetLimit o 10) /\
  (Validate o = None -> IsSoftDeletedIncluded o = false ->
   IsOffsetSet o = true -> IsLimitSet o = false ->
   fst (ToSelectDataset now o driver table) = SetLimit o 10 /\
   IsLimitSet (fst (ToSelectDataset now o driver table)) = true /\
   GetLimit (fst (ToSelectDataset now o driver table)) = 10%Z) /\
  (Validate o <> None -> fst (ToSelectDataset now o driver table) = o).
Proof.
  split; [apply ToSelectDataset_query|]. split.
  - intros HV HS HO HL. rewrite ToSelectDataset_default by assumption.
    cbn [fst]. unfold with_default_limit. rewrite HO, HL.
    repeat split.
  - intros HV. destruct (Validate o) as [e|] eqn:E; [|congruence].
    rewrite (ToSelectDataset_invalid now o driver table e E). reflexivity.
Qed.

Lemma ToSelectDataset_sets_default_limit_witness :
  IsCountOnly counted_from_fifth = true /\
  IsLimitSet (fst (ToSelectDataset 100%Z counted_from_fifth "sqlite" "records")) = true /\
  GetLimit (fst (ToSelectDataset 100%Z counted_from_fifth "sqlite" "records")) = 10%Z.
Proof.
  split; [reflexivity|].
  apply (ToSelectDataset_sets_default_limit 100%Z counted_from_fifth "sqlite" "records");
    reflexivity.
Defined.

(** A query that passes validation compiles to a statement. *)
Lemma ToSelectDataset_compiles (now : goqu.DateTime) (o : recordQueryImplementation)
    (driver table : string) :
  Validate o = None ->
  exists q, selectDataset (snd (ToSelectDataset now o driver table)) = Some q.
Proof.
  intros HV. destruct (IsSoftDeletedIncluded o) eqn:HS.
  - rewrite ToSelectDataset_soft_deleted_included by assumption.
    eexists; reflexivity.
  - rewrite ToSelectDataset_default by assumption. eexists; reflexivity.
Qed.

(** ** The ID filter *)

Lemma payload_like_no_eq (col : string) (vs : list string) :
  existsb (anywhere (eq_on col)) (map payload_like vs) = false.
Proof. induction vs as [|v vs IH]; simpl; [reflexivity | exact IH]. Qed.

Lemma payload_not_like_no_eq (col : string) (vs : list string) :
  existsb (anywhere (eq_on col)) (map payload_not_like vs) = false.
Proof. induction vs as [|v vs IH]; simpl; [reflexivity | exact IH]. Qed.

Lemma payload_clause_no_eq (col : string) (o : recordQueryImplementation) :
  existsb (anywhere (eq_on col)) (payload_clause o) = false.
Proof.
  unfold payload_clause.
  destruct (payload_conds o) as [|c cs] eqn:E; [reflexivity|].
  rewrite <- E. cbn [existsb anywhere eq_on orb]. rewrite orb_false_r.
  unfold payload_conds. rewrite existsb_app, payload_not_like_no_eq, orb_false_r.
  destruct (payloadSearch o) as [|x xs]; [reflexivity|].
  cbn [existsb anywhere eq_on orb]. rewrite orb_false_r.
  apply payload_like_no_eq.
Qed.

(** Without the ID flag no step adds an equality on the id column. *)
Lemma no_id_predicate (now : goqu.DateTime) (o : recordQueryImplementation)
    (driver table : string) (q : goqu.SelectDataset) :
  IsIDSet o = false ->
  selectDataset (snd (ToSelectDataset now o driver table)) = Some q ->
  has_id_predicate q = false.
Proof.
  intros HI. destruct (Validate o) as [e|] eqn:HV.
  - rewrite (ToSelectDataset_invalid now o driver table e HV). discriminate.
  - destruct (IsSoftDeletedIncluded o) eqn:HS.
    + rewrite ToSelectDataset_soft_deleted_included by assumption.
      intros H. injection H as <-. reflexivity.
    + rewrite ToSelectDataset_default by assumption.
      intros H. injection H as <-.
      unfold has_id_predicate, default_where. cbn [goqu.where_].
      rewrite !existsb_app, payload_clause_no_eq.
      unfold id_clause, id_list_clause, type_clause. rewrite HI.
      destruct (IsIDListSet o); [destruct (0 <? _)%nat|];
        destruct (IsTypeSet o); reflexivity.
Qed.

Lemma call_keeps_id_flag (o : recordQueryImplementation) (c : Call) :
  keeps_id c = true -> IsIDSet (call o c) = IsIDSet o.
Proof.
  destruct c; try reflexivity; [discriminate|].
  intros _. simpl.
  destruct (ToSelectDataset_query now o driver table) as [-> | ->]; reflexivity.
Qed.

Lemma calls_keep_id_flag (cs : list Call) (o : recordQueryImplementation) :
  forallb keeps_id cs = true -> IsIDSet (fold_left call cs o) = IsIDSet o.
Proof.
  revert o. induction cs as [|c cs IH]; simpl; intros o H; [reflexivity|].
  apply andb_true_iff in H as [Hc Hcs].
  rewrite IH by exact Hcs. apply call_keeps_id_flag, Hc.
Qed.

(** C5. [SetID("")] clears the ID flag whatever was set before, so
    [IsIDSet()] is false, and a statement compiled afterwards, directly
    or after further calls other than [SetID], has no ID predicate (there
    is one whenever the query passes validation); [SetID] with a
    non-empty string sets the flag. *)
Theorem SetID_empty_clears_id_filter (o : recordQueryImplementation) :
  IsIDSet (SetID o "") = false /\
  (forall cs now driver table q,
     forallb keeps_id cs = true ->
     selectDataset
       (snd (ToSelectDataset now (fold_left call cs (SetID o "")) driver table))
     = Some q ->
     has_id_predicate q = false) /\
  (forall now driver table,
     Validate (SetID o "") = None ->
     exists q,
       selectDataset (snd (ToSelectDataset now (SetID o "") driver table)) = Some q) /\
  (forall s, s <> "" -> IsIDSet (SetID o s) = true).
Proof.
  split; [reflexivity|]. split; [|split].
  - intros cs now driver table q Hcs H.
    apply (no_id_predicate now (fold_left call cs (SetID o "")) driver table q);
      [|exact H].
    rewrite calls_keep_id_flag by exact Hcs. reflexivity.
  - intros now driver table HV. apply ToSelectDataset_compiles, HV.
  - intros s Hs. unfold SetID, IsIDSet. simpl.
    destruct (String.eqb_spec s ""); [contradiction | reflexivity].
Qed.

Lemma SetID_empty_clears_id_filter_witness :
  IsIDSet (SetID NewRecordQuery "rec_1") = true /\
  IsIDSet (SetID (SetID NewRecordQuery "rec_1") "") = false /\
  exists q,
    selectDataset
      (snd (ToSelectDataset 100%Z
              (fold_left call [CallSetType "person"]
                 (SetID (SetID NewRecordQuery "rec_1") ""))
              "sqlite" "records")) = Some q /\
    has_id_predicate q = false.
Proof.
  destruct (SetID_empty_clears_id_filter (SetID NewRecordQuery "rec_1"))
    as (Hclear & Hnone & _ & _).
  split.
  - apply (SetID_empty_clears_id_filter NewRecordQuery). discriminate.
  - split; [exact Hclear|].
    eexists. split; [reflexivity|].
    apply (Hnone [CallSetType "person"] 100%Z "sqlite" "records");
      reflexivity.
Defined.

(** ** Soft-deleted records included *)

(** Where the type step is reached it adds the type predicate. *)
Lemma type_filter_applied (now : goqu.DateTime) (o : recordQueryImplementation)
    (driver table : string) :
  Validate o = None -> IsSoftDeletedIncluded o = false -> IsTypeSet o = true ->
  exists q,
    selectDataset (snd (ToSelectDataset now o driver table)) = Some q /\
    has_type_predicate (GetType o) q.
Proof.
  intros HV HS HT. rewrite ToSelectDataset_default by assumption.
  eexists. split; [reflexivity|].
  unfold has_type_predicate, default_where, type_clause. cbn [goqu.where_].
  rewrite HT. rewrite !in_app_iff. right. right. right. left. left. reflexivity.
Qed.

(** C1, on the code.  [SetType("person").SetSoftDeletedIncluded(true)]
    passes validation, yet the statement compiled for it is the bare
    dataset: it has no WHERE clause, so no type predicate, and it selects
    a record of type "order". *)
Theorem soft_deleted_included_drops_type_filter :
  Validate deleted_persons = None /\
  IsSoftDeletedIncluded deleted_persons = true /\
  IsTypeSet deleted_persons = true /\
  GetType deleted_persons = "person" /\
  forall now,
    ToSelectDataset now deleted_persons "sqlite" "records" =
    (deleted_persons, mkCompiled (Some (goqu.From "sqlite" "records")) [] None) /\
    goqu.where_ (goqu.From "sqlite" "records") = [] /\
    ~ has_type_predicate "person" (goqu.From "sqlite" "records") /\
    selects (goqu.From "sqlite" "records") order_row = true.
Proof.
  repeat split. intros H. exact H.
Qed.

(** C6, on the code.  [SetOffset(5).SetSoftDeletedIncluded(true)] is not
    count-only and has an offset and no limit, yet the statement compiled
    for it carries neither limit nor offset. *)
Theorem soft_deleted_included_drops_pagination :
  IsCountOnly deleted_from_fifth = false /\
  IsOffsetSet deleted_from_fifth = true /\
  IsLimitSet deleted_from_fifth = false /\
  Validate deleted_from_fifth = None /\
  forall now,
    ToSelectDataset now deleted_from_fifth "sqlite" "records" =
    (deleted_from_fifth, mkCompiled (Some (goqu.From "sqlite" "records")) [] None) /\
    goqu.limit (goqu.From "sqlite" "records") = None /\
    goqu.offset (goqu.From "sqlite" "records") = None.
Proof. repeat split. Qed.

(** ** The payload filter *)

Lemma holds_payload_likes (r : Row) (vs : list string) :
  existsb (holds r) (map payload_like vs) =
  existsb (fun v => sql_like (row_payload r) ("%" ++ v ++ "%")) vs.
Proof.
  induction vs as [|v vs IH]; [reflexivity|].
  cbn [map existsb]. rewrite IH. reflexivity.
Qed.

Lemma holds_payload_not_likes (r : Row) (vs : list string) :
  forallb (holds r) (map payload_not_like vs) =
  forallb (fun v => negb (sql_like (row_payload r) ("%" ++ v ++ "%"))) vs.
Proof.
  induction vs as [|v vs IH]; [reflexivity|].
  cbn [map forallb]. rewrite IH. reflexivity.
Qed.

(** Where the payload step is reached and there is a must-contain
    substring, it adds one clause: the AND of the OR of the LIKE
    conditions with every NOT LIKE condition; a selected row then matches
    one of the former and none of the latter. *)
Lemma payload_filter_applied (now : goqu.DateTime) (o : recordQueryImplementation)
    (driver table : string) :
  Validate o = None -> IsSoftDeletedIncluded o = false ->
  GetPayloadSearch o <> [] ->
  exists q,
    selectDataset (snd (ToSelectDataset now o driver table)) = Some q /\
    List.In (goqu.And (goqu.Or (map payload_like (GetPayloadSearch o))
                         :: map payload_not_like (GetPayloadSearchNot o)))
            (goqu.where_ q) /\
    forall r, selects q r = true ->
      existsb (fun v => sql_like (row_payload r) ("%" ++ v ++ "%"))
              (GetPayloadSearch o) = true /\
      forallb (fun v => negb (sql_like (row_payload r) ("%" ++ v ++ "%")))
              (GetPayloadSearchNot o) = true.
Proof.
  unfold GetPayloadSearch, GetPayloadSearchNot.
  intros HV HS HP. rewrite ToSelectDataset_default by assumption.
  eexists. split; [reflexivity|].
  assert (E : payload_clause o =
              [goqu.And (goqu.Or (map payload_like (payloadSearch o))
                           :: map payload_not_like (payloadSearchNot o))]).
  { unfold payload_clause, payload_conds.
    destruct (payloadSearch o) as [|x xs]; [congruence | reflexivity]. }
  unfold selects, default_where. cbn [goqu.where_]. rewrite E. split.
  - rewrite !in_app_iff. right. right. left. left. reflexivity.
  - intros r H. rewrite !forallb_app in H.
    apply andb_true_iff in H as [_ H]. apply andb_true_iff in H as [_ H].
    apply andb_true_iff in H as [H _].
    cbn [forallb holds] in H. rewrite andb_true_r in H.
    apply andb_true_iff in H as [Hor Hnot].
    rewrite <- holds_payload_likes, <- holds_payload_not_likes. tauto.
Qed.

(** C7, on the code.
    [AddPayloadSearch("x").AddPayloadSearchNot("z").SetSoftDeletedIncluded(true)]
    has a must-contain and a must-not-contain substring, yet the
    statement compiled for it has no WHERE clause: it selects a row whose
    payload has no "x" and has a "z". *)
Theorem soft_deleted_included_drops_payload_filter :
  GetPayloadSearch deleted_with_x_without_z = ["x"] /\
  GetPayloadSearchNot deleted_with_x_without_z = ["z"] /\
  Validate deleted_with_x_without_z = None /\
  forall now,
    ToSelectDataset now deleted_with_x_without_z "sqlite" "records" =
    (deleted_with_x_without_z,
     mkCompiled (Some (goqu.From "sqlite" "records")) [] None) /\
    goqu.where_ (goqu.From "sqlite" "records") = [] /\
    sql_like (row_payload (sample_row "zebra" 253402300799%Z)) "%x%" = false /\
    sql_like (row_payload (sample_row "zebra" 253402300799%Z)) "%z%" = true /\
    selects (goqu.From "sqlite" "records") (sample_row "zebra" 253402300799%Z) = true.
Proof. repeat split. Qed.

(** ** The soft-delete predicate *)

Lemma holds_softDeletedExpr (now : goqu.DateTime) (r : Row) :
  holds r (softDeletedExpr now) = (now <? row_soft_deleted_at r)%Z.
Proof. reflexivity. Qed.

(** C3, as the code has it.  A record whose softDeletedAt equals now is
    not soft-deleted in the data model's sense, yet the statement
    compiled for the query with no filter does not select it. *)
Lemma deleted_at_now_is_hidden :
  spec_soft_deleted 100%Z (sample_row "{}" 100%Z) = false /\
  exists q,
    selectDataset (snd (ToSelectDataset 100%Z NewRecordQuery "sqlite" "records"))
    = Some q /\
    selects q (sample_row "{}" 100%Z) = false.
Proof.
  split; [reflexivity|]. eexists. split; reflexivity.
Qed.

(** C3, amended.  The statement compiled for a query that passes
    validation and does not ask for soft-deleted records has the
    soft-delete predicate among its clauses, and that predicate keeps a
    row iff the row's soft-delete time is strictly after now.  So the
    statement selects no soft-deleted record (softDeletedAt before now)
    and none whose softDeletedAt equals now either, and with no filter
    set it selects exactly the rows with softDeletedAt after now; keeping
    a row and its not being soft-deleted agree on every row whose
    softDeletedAt differs from now. *)
Theorem soft_delete_predicate_keeps_future_rows (now : goqu.DateTime)
    (o : recordQueryImplementation) (driver table : string) :
  Validate o = None -> IsSoftDeletedIncluded o = false ->
  exists q,
    selectDataset (snd (ToSelectDataset now o driver table)) = Some q /\
    List.In (softDeletedExpr now) (goqu.where_ q) /\
    forall r,
      (holds r (softDeletedExpr now) = true <-> (now < row_soft_deleted_at r)%Z) /\
      (selects q r = true -> (now < row_soft_deleted_at r)%Z) /\
      (spec_soft_deleted now r = true -> selects q r = false) /\
      (row_soft_deleted_at r = now -> selects q r = false) /\
      (IsIDSet o = false -> IsIDListSet o = false -> IsTypeSet o = false ->
       GetPayloadSearch o = [] -> GetPayloadSearchNot o = [] ->
       selects q r = (now <? row_soft_deleted_at r)%Z) /\
      (row_soft_deleted_at r <> now ->
       holds r (softDeletedExpr now) = negb (spec_soft_deleted now r)).
Proof.
  intros HV HS. rewrite ToSelectDataset_default by assumption.
  eexists. split; [reflexivity|]. cbn [goqu.where_]. split.
  { unfold default_where. rewrite !in_app_iff. do 4 right. left. reflexivity. }
  intros r.
  assert (Hsel : selects
            (goqu.mkSelectDataset driver table (default_where now o)
               (page_limit o) (page_offset o) (ordering o)) r = true ->
          (now < row_soft_deleted_at r)%Z).
  { unfold selects, default_where. cbn [goqu.where_].
    rewrite !forallb_app. cbn [forallb]. rewrite holds_softDeletedExpr.
    intros H. do 4 (apply andb_true_iff in H as [_ H]).
    apply andb_true_iff in H as [H _]. apply Z.ltb_lt, H. }
  assert (Hnot : forall b : bool, (b = true -> (now < row_soft_deleted_at r)%Z) ->
                 ~ (now < row_soft_deleted_at r)%Z -> b = false).
  { intros [|] Hb Hn; [exfalso; apply Hn, Hb; reflexivity | reflexivity]. }
  rewrite holds_softDeletedExpr. unfold spec_soft_deleted.
  split; [apply Z.ltb_lt|]. split; [exact Hsel|]. split; [|split; [|split]].
  - intros H. apply Z.ltb_lt in H. apply Hnot; [exact Hsel | lia].
  - intros H. apply Hnot; [exact Hsel | lia].
  - unfold GetPayloadSearch, GetPayloadSearchNot.
    intros HI HL HT HP HN.
    unfold selects, default_where, id_clause, id_list_clause, payload_clause,
      payload_conds, type_clause.
    rewrite HI, HL, HT, HP, HN. cbn [goqu.where_ app map forallb].
    rewrite holds_softDeletedExpr. apply andb_true_r.
  - intros H.
    destruct (Z.ltb_spec now (row_soft_deleted_at r));
      destruct (Z.ltb_spec (row_soft_deleted_at r) now); simpl; try reflexivity; lia.
Qed.

Lemma soft_delete_predicate_keeps_future_rows_witness :
  exists q,
    selectDataset
      (snd (ToSelectDataset 100%Z (SetType NewRecordQuery "person") "sqlite" "records"))
    = Some q /\
    List.In (softDeletedExpr 100%Z) (goqu.where_ q) /\
    selects q (sample_row "{}" 99%Z) = false.
Proof.
  destruct (soft_delete_predicate_keeps_future_rows 100%Z
              (SetType NewRecordQuery "person") "sqlite" "records"
              eq_refl eq_refl) as (q & Hq & Hin & Hr).
  exists q. split; [exact Hq|]. split; [exact Hin|].
  destruct (Hr (sample_row "{}" 99%Z)) as (_ & _ & Hdel & _).
  apply Hdel. reflexivity.
Defined.

(** * Further properties of the builder and the compiler *)

(** ** What [Validate] accepts *)

Lemma filter_all {A : Type} (p : A -> bool) (l : list A) :
  filter p l = l <-> forallb p l = true.
Proof.
  induction l as [|x l IH]; simpl; [tauto|].
  destruct (p x) eqn:E; simpl.
  - split; intros H.
    + apply IH. congruence.
    + f_equal. apply IH, H.
  - split; [|discriminate]. intros H.
    pose proof (filter_length_le p l) as Hle. rewrite H in Hle. simpl in Hle. lia.
Qed.

Lemma Validate_None_iff (o : recordQueryImplementation) :
  Validate o = None <->
  (IsIDSet o = true -> GetID o <> "") /\
  (IsIDListSet o = true ->
     GetIDList o <> [] /\ forallb (fun s => negb (blank s)) (GetIDList o) = true) /\
  (IsTypeSet o = true -> GetType o <> "").
Proof.
  split.
  - intros H. apply Validate_None in H as (Hid & Hl & Ht).
    unfold id_check_passes in Hid. split; [|split].
    + intros E. rewrite E in Hid. simpl in Hid.
      intros E'. rewrite E' in Hid. discriminate.
    + intros E. destruct (Hl E) as [Hne Hf]. split; [exact Hne|].
      apply filter_all in Hf. exact Hf.
    + intros E. rewrite E in Ht. simpl in Ht.
      intros E'. rewrite E' in Ht. discriminate.
  - intros (Hid & Hl & Ht). unfold Validate.
    assert (E1 : IsIDSet o && (GetID o =? "") = false).
    { destruct (IsIDSet o); [|reflexivity]. simpl.
      apply String.eqb_neq, Hid. reflexivity. }
    rewrite E1.
    assert (E3 : IsTypeSet o && (GetType o =? "") = false).
    { destruct (IsTypeSet o); [|reflexivity]. simpl.
      apply String.eqb_neq, Ht. reflexivity. }
    rewrite E3.
    destruct (IsIDListSet o); [|reflexivity].
    destruct (Hl eq_refl) as [Hne Hf]. apply filter_all in Hf.
    unfold blank in Hf. rewrite Hf, Nat.eqb_refl.
    destruct (GetIDList o); [congruence | reflexivity].
Qed.

(** [Validate] accepts a query exactly when the ID, if set, is not empty,
    the ID list, if set, is not empty and has no blank entry, and the
    type, if set, is not empty. *)
Theorem Validate_accepts_iff (o : recordQueryImplementation) :
  Validate o = None <->
  (IsIDSet o = true -> GetID o <> "") /\
  (IsIDListSet o = true ->
     GetIDList o <> [] /\ forallb (fun s => negb (blank s)) (GetIDList o) = true) /\
  (IsTypeSet o = true -> GetType o <> "").
Proof. exact (Validate_None_iff o). Qed.

Lemma Validate_accepts_iff_witness : Validate two_persons = None.
Proof.
  apply (proj2 (Validate_accepts_iff two_persons)).
  split; [discriminate|]. split; [|discriminate].
  intros _. split; [discriminate | vm_compute; reflexivity].
Defined.

(** Only [SetID], [SetIDList] and [SetType] can change the verdict of
    [Validate]: after any other call, compilation included, it is what it
    was before. *)
Theorem Validate_ignores_other_calls (o : recordQueryImplementation) (c : Call) :
  touches_validation c = false -> Validate (call o c) = Validate o.
Proof.
  destruct c; try discriminate; intros _; try reflexivity.
  simpl. destruct (ToSelectDataset_query now o driver table) as [-> | ->];
    reflexivity.
Qed.

Lemma Validate_ignores_other_calls_witness :
  Validate (call mixed_blank (CallSetLimit 3)) = Validate mixed_blank.
Proof.
  apply (Validate_ignores_other_calls mixed_blank (CallSetLimit 3)). reflexivity.
Defined.

Lemma Validate_SetType_empty (o : recordQueryImplementation) :
  Validate o = None -> Validate (SetType o "") = Some "type is required".
Proof.
  intros HV. apply Validate_None in HV as (E1 & Hf & _).
  unfold id_check_passes in E1. unfold Validate.
  change (IsIDSet (SetType o "")) with (IsIDSet o).
  change (GetID (SetType o "")) with (GetID o).
  change (IsIDListSet (SetType o "")) with (IsIDListSet o).
  change (GetIDList (SetType o "")) with (GetIDList o).
  rewrite E1. destruct (IsIDListSet o); [|reflexivity].
  destruct (Hf eq_refl) as [Hne Hfl]. rewrite Hfl, Nat.eqb_refl.
  destruct (GetIDList o); [congruence | reflexivity].
Qed.

(** How the three setters that matter to [Validate] act on a query it
    accepts: [SetID] never spoils it, [SetType] spoils it exactly with the
    empty string, with the error "type is required", and [SetIDList]
    spoils it exactly when the list is empty or has a blank entry. *)
Theorem setters_and_validity (o : recordQueryImplementation) :
  Validate o = None ->
  (forall s, Validate (SetID o s) = None) /\
  (forall s, s <> "" -> Validate (SetType o s) = None) /\
  Validate (SetType o "") = Some "type is required" /\
  (forall ids,
     Validate (SetIDList o ids) = None <->
     ids <> [] /\ forallb (fun s => negb (blank s)) ids = true).
Proof.
  intros HV. pose proof (proj1 (Validate_None_iff o) HV) as (Hid & Hl & Ht).
  split; [|split; [|split]].
  - intros s. apply Validate_None_iff. split; [|split]; try assumption.
    unfold SetID, IsIDSet, GetID. simpl.
    destruct (String.eqb_spec s ""); [discriminate | intros _; assumption].
  - intros s Hs. apply Validate_None_iff. split; [|split]; try assumption.
    intros _. exact Hs.
  - apply Validate_SetType_empty, HV.
  - intros ids. rewrite Validate_None_iff.
    change (IsIDSet (SetIDList o ids)) with (IsIDSet o).
    change (GetID (SetIDList o ids)) with (GetID o).
    change (IsTypeSet (SetIDList o ids)) with (IsTypeSet o).
    change (GetType (SetIDList o ids)) with (GetType o).
    change (IsIDListSet (SetIDList o ids)) with true.
    change (GetIDList (SetIDList o ids)) with ids.
    split; [intros (_ & H & _); apply H; reflexivity | intros H; tauto].
Qed.

Lemma setters_and_validity_witness :
  Validate (SetType two_persons "") = Some "type is required" /\
  Validate (SetID two_persons "") = None.
Proof.
  assert (HV : Validate two_persons = None) by (vm_compute; reflexivity).
  destruct (setters_and_validity two_persons HV) as (Hid & _ & Hty & _).
  split; [exact Hty | exact (Hid ""%string)].
Defined.

(** ** What [ToSelectDataset] returns *)



(** A compiled statement is never ordered ascending: it has no ordering
    when no order column is set, and where the ordering step is reached
    with a column set it is ordered by that column, descending. *)
Theorem compiled_order_is_descending (now : goqu.DateTime)
    (o : recordQueryImplementation) (driver table : string)
    (q : goqu.SelectDataset) :
  selectDataset (snd (ToSelectDataset now o driver table)) = Some q ->
  (forall i, ~ List.In (goqu.Asc i) (goqu.order q)) /\
  (IsOrderBySet o = false -> goqu.order q = []) /\
  (IsSoftDeletedIncluded o = false -> IsOrderBySet o = true ->
   goqu.order q = [goqu.Desc (goqu.I (GetOrderBy o))]).
Proof.
  destruct (Validate o) as [e|] eqn:HV.
  - rewrite (ToSelectDataset_invalid now o driver table e HV). discriminate.
  - destruct (IsSoftDeletedIncluded o) eqn:HS.
    + rewrite ToSelectDataset_soft_deleted_included by assumption.
      intros H. injection H as <-. simpl.
      split; [intros i []|]. split; [reflexivity | discriminate].
    + rewrite ToSelectDataset_default by assumption.
      intros H. injection H as <-. cbn [goqu.order]. unfold ordering.
      destruct (IsOrderBySet o); simpl.
      * split; [intros i [E|[]]; discriminate|]. split; [discriminate | reflexivity].
      * split; [intros i []|]. split; [reflexivity | discriminate].
Qed.

Lemma compiled_order_is_descending_witness :
  exists q,
    selectDataset
      (snd (ToSelectDataset 100%Z (SetOrderBy NewRecordQuery "created_at")
              "sqlite" "records")) = Some q /\
    goqu.order q = [goqu.Desc (goqu.I "created_at")].
Proof.
  eexists. split; [reflexivity|].
  apply (compiled_order_is_descending 100%Z (SetOrderBy NewRecordQuery "created_at")
           "sqlite" "records"); reflexivity.
Defined.

(** Where the column step is reached, the columns returned are the ones
    last given to [SetColumns], in their order (none if it was never
    called). *)
Theorem compiled_columns (now : goqu.DateTime) (o : recordQueryImplementation)
    (driver table : string) (cols : list string) :
  Validate o = None -> IsSoftDeletedIncluded o = false ->
  selected (snd (ToSelectDataset now o driver table)) = GetColumns o /\
  selected (snd (ToSelectDataset now (SetColumns o cols) driver table)) = cols.
Proof.
  intros HV HS. split.
  - rewrite ToSelectDataset_default by assumption. reflexivity.
  - rewrite ToSelectDataset_default by assumption. reflexivity.
Qed.

Lemma compiled_columns_witness :
  selected (snd (ToSelectDataset 100%Z (SetColumns two_persons ["id"; "payload"])
                   "sqlite" "records")) = ["id"; "payload"].
Proof.
  apply (compiled_columns 100%Z two_persons "sqlite" "records" ["id"; "payload"]);
    vm_compute; reflexivity.
Defined.

(** ** The payload needles *)

Lemma call_payloadSearch (o : recordQueryImplementation) (c : Call) :
  GetPayloadSearch (call o c) = (GetPayloadSearch o ++ needles [c])%list /\
  GetPayloadSearchNot (call o c) = (GetPayloadSearchNot o ++ needles_not [c])%list.
Proof.
  destruct c; simpl; unfold GetPayloadSearch, GetPayloadSearchNot; simpl;
    rewrite ?app_nil_r; try (split; reflexivity).
  destruct (ToSelectDataset_query now o driver table) as [-> | ->];
    split; reflexivity.
Qed.

Lemma calls_payloadSearch (cs : list Call) (o : recordQueryImplementation) :
  GetPayloadSearch (fold_left call cs o) = (GetPayloadSearch o ++ needles cs)%list /\
  GetPayloadSearchNot (fold_left call cs o)
  = (GetPayloadSearchNot o ++ needles_not cs)%list.
Proof.
  revert o. induction cs as [|c cs IH]; intros o.
  - simpl. rewrite !app_nil_r. split; reflexivity.
  - cbn [fold_left]. destruct (IH (call o c)) as [E1 E2].
    destruct (call_payloadSearch o c) as [C1 C2].
    rewrite E1, E2, C1, C2, <- !app_assoc.
    unfold needles, needles_not. simpl. rewrite !app_nil_r. split; reflexivity.
Qed.

(** The two needle lists of a query are the arguments of its
    [AddPayloadSearch] and of its [AddPayloadSearchNot] calls, each in
    call order and with repetitions; no other call touches them. *)
Theorem payload_needles_accumulate (cs : list Call) :
  GetPayloadSearch (built cs) = needles cs /\
  GetPayloadSearchNot (built cs) = needles_not cs.
Proof. exact (calls_payloadSearch cs NewRecordQuery). Qed.

(** ** The filters of the compiled statement *)

(** The ID list of a query that passes validation reaches the statement
    whole: where the step is reached the statement has the predicate
    "id IN list" with the list as it was given, never a shortened one and
    never none. *)
Theorem id_list_filter_is_whole (now : goqu.DateTime)
    (o : recordQueryImplementation) (driver table : string) :
  Validate o = None -> IsSoftDeletedIncluded o = false -> IsIDListSet o = true ->
  exists q,
    selectDataset (snd (ToSelectDataset now o driver table)) = Some q /\
    List.In (goqu.In (goqu.C COLUMN_ID) (GetIDList o)) (goqu.where_ q) /\
    GetIDList o <> [].
Proof.
  intros HV HS HL. rewrite ToSelectDataset_default by assumption.
  eexists. split; [reflexivity|].
  destruct (Validate_None o HV) as (_ & Hl & _). destruct (Hl HL) as [Hne Hf].
  split; [|exact Hne].
  unfold default_where, id_list_clause. cbn [goqu.where_].
  rewrite HL. cbv zeta. rewrite Hf.
  destruct (GetIDList o) as [|x l]; [congruence|].
  rewrite !in_app_iff. right. left. left. reflexivity.
Qed.

Lemma id_list_filter_is_whole_witness :
  exists q,
    selectDataset (snd (ToSelectDataset 100%Z two_persons "sqlite" "records"))
    = Some q /\
    List.In (goqu.In (goqu.C COLUMN_ID) ["rec_1"; "rec_3"]) (goqu.where_ q).
Proof.
  destruct (id_list_filter_is_whole 100%Z two_persons "sqlite" "records")
    as (q & Hq & Hin & _); try (vm_compute; reflexivity).
  exists q. split; [exact Hq | exact Hin].
Defined.

Lemma holds_payload_clause (o : recordQueryImplementation) (r : Row) :
  forallb (holds r) (payload_clause o) = payload_ok o r.
Proof.
  unfold payload_clause, payload_ok, payload_conds, GetPayloadSearch,
    GetPayloadSearchNot.
  destruct (payloadSearch o) as [|x xs].
  - cbn [app]. destruct (payloadSearchNot o) as [|y ys]; [reflexivity|].
    cbn [map]. cbn [forallb holds]. rewrite andb_true_r, andb_true_l.
    rewrite holds_payload_not_likes. reflexivity.
  - cbn [app forallb holds]. rewrite andb_true_r.
    rewrite holds_payload_likes, holds_payload_not_likes. reflexivity.
Qed.

(** [applyPayloadWhere] narrows any dataset by the payload condition and
    by nothing else: a row is selected after it iff it was selected
    before and its payload has one of the must-contain needles (if there
    is any) and none of the must-not-contain ones.  Without needles the
    dataset is returned as it is. *)
Theorem applyPayloadWhere_selects (o : recordQueryImplementation)
    (q : goqu.SelectDataset) :
  (forall r, selects (applyPayloadWhere o q) r = selects q r && payload_ok o r) /\
  (GetPayloadSearch o = [] -> GetPayloadSearchNot o = [] ->
   applyPayloadWhere o q = q).
Proof.
  split.
  - intros r. rewrite applyPayloadWhere_clause, Where_clauses.
    unfold selects. cbn [goqu.where_].
    rewrite forallb_app, holds_payload_clause. reflexivity.
  - unfold GetPayloadSearch, GetPayloadSearchNot, applyPayloadWhere.
    intros -> ->. reflexivity.
Qed.

Lemma applyPayloadWhere_selects_witness :
  applyPayloadWhere two_persons (goqu.From "sqlite" "records")
  = goqu.From "sqlite" "records".
Proof.
  apply (applyPayloadWhere_selects two_persons (goqu.From "sqlite" "records"));
    reflexivity.
Defined.

(** The statement compiled for a query that passes validation and does
    not ask for soft-deleted records selects exactly the rows that pass
    every filter set on the query (ID, ID list, payload needles, type)
    and whose soft-delete time is after now: the filters are joined with
    AND, and an unset filter asks nothing. *)
Theorem compiled_statement_selects_matching_rows (now : goqu.DateTime)
    (o : recordQueryImplementation) (driver table : string) :
  Validate o = None -> IsSoftDeletedIncluded o = false ->
  exists q,
    selectDataset (snd (ToSelectDataset now o driver table)) = Some q /\
    forall r, selects q r = matches now o r.
Proof.
  intros HV HS. rewrite ToSelectDataset_default by assumption.
  eexists. split; [reflexivity|]. intros r.
  assert (E1 : forallb (holds r) (id_clause o)
               = if IsIDSet o then row_id r =? GetID o else true).
  { unfold id_clause. destruct (IsIDSet o); [|reflexivity].
    cbn [forallb]. rewrite andb_true_r. reflexivity. }
  assert (E2 : forallb (holds r) (id_list_clause o)
               = if IsIDListSet o
                 then existsb (String.eqb (row_id r)) (GetIDList o) else true).
  { unfold id_list_clause. destruct (IsIDListSet o) eqn:HL; [|reflexivity].
    destruct (Validate_None o HV) as (_ & Hl & _). destruct (Hl HL) as [Hne Hf].
    cbv zeta. rewrite Hf. destruct (GetIDList o) as [|x l]; [congruence|].
    cbn [length Nat.ltb Nat.leb forallb]. rewrite andb_true_r. reflexivity. }
  assert (E3 : forallb (holds r) (type_clause o)
               = if IsTypeSet o then row_type r =? GetType o else true).
  { unfold type_clause. destruct (IsTypeSet o); [|reflexivity].
    cbn [forallb]. rewrite andb_true_r. reflexivity. }
  unfold selects, default_where, matches. cbn [goqu.where_].
  rewrite !forallb_app, holds_payload_clause, E1, E2, E3. cbn [forallb].
  rewrite holds_softDeletedExpr, andb_true_r, !andb_assoc. reflexivity.
Qed.

Lemma compiled_statement_selects_matching_rows_witness :
  exists q,
    selectDataset (snd (ToSelectDataset 100%Z two_persons "sqlite" "records"))
    = Some q /\
    selects q (sample_row "{}" 253402300799%Z) = true /\
    selects q order_row = false.
Proof.
  destruct (compiled_statement_selects_matching_rows 100%Z two_persons
              "sqlite" "records") as (q & Hq & Hsel);
    try (vm_compute; reflexivity).
  exists q. split; [exact Hq|].
  rewrite !Hsel. split; vm_compute; reflexivity.
Defined.

(** ** The flags of the builder *)

Lemma call_keeps_flags (o : recordQueryImplementation) (c : Call) :
  (IsIDListSet o = true -> IsIDListSet (call o c) = true) /\
  (IsTypeSet o = true -> IsTypeSet (call o c) = true) /\
  (IsLimitSet o = true -> IsLimitSet (call o c) = true) /\
  (IsOffsetSet o = true -> IsOffsetSet (call o c) = true) /\
  (IsOrderBySet o = true -> IsOrderBySet (call o c) = true).
Proof.
  destruct c; simpl; try (repeat split; auto; fail).
  destruct (ToSelectDataset_query now o driver table) as [-> | ->];
    repeat split; auto.
Qed.

(** No call of the public interface clears the ID-list, type, limit,
    offset or order flag: once set, each stays set through every later
    call ([SetID] with the empty string clears the ID flag only). *)
Theorem flags_stay_set (cs : list Call) (o : recordQueryImplementation) :
  (IsIDListSet o = true -> IsIDListSet (fold_left call cs o) = true) /\
  (IsTypeSet o = true -> IsTypeSet (fold_left call cs o) = true) /\
  (IsLimitSet o = true -> IsLimitSet (fold_left call cs o) = true) /\
  (IsOffsetSet o = true -> IsOffsetSet (fold_left call cs o) = true) /\
  (IsOrderBySet o = true -> IsOrderBySet (fold_left call cs o) = true).
Proof.
  revert o. induction cs as [|c cs IH]; intros o; [simpl; tauto|].
  cbn [fold_left].
  destruct (IH (call o c)) as (I1 & I2 & I3 & I4 & I5).
  destruct (call_keeps_flags o c) as (C1 & C2 & C3 & C4 & C5).
  repeat split; auto.
Qed.

Lemma flags_stay_set_witness :
  IsTypeSet
    (fold_left call [CallSetID ""; CallSetLimit 3; CallToSelectDataset 100%Z "sqlite" "t"]
       (SetType NewRecordQuery "person")) = true.
Proof.
  apply (proj1 (proj2 (flags_stay_set
           [CallSetID ""; CallSetLimit 3; CallToSelectDataset 100%Z "sqlite" "t"]
           (SetType NewRecordQuery "person")))).
  reflexivity.
Defined.

(** ** Compiling again *)

Lemma with_default_limit_again (o : recordQueryImplementation) :
  with_default_limit (with_default_limit o) = with_default_limit o /\
  page_limit (with_default_limit o) = page_limit o /\
  page_offset (with_default_limit o) = page_offset o.
Proof.
  destruct o as [hid i hl il ts rt cols co sd ls lim os ofs obs ob ps pn].
  unfold with_default_limit, page_limit, page_offset, IsOffsetSet, IsLimitSet,
    IsCountOnly, GetLimit, GetOffset, SetLimit.
  cbn [isOffsetSet isLimitSet isCountOnly limit offset].
  destruct os, ls, co; repeat split.
Qed.

(** Compiling a query a second time, at the same clock reading, gives
    the same statement, columns and error as the first time and leaves
    the query as the first compilation left it: the limit that the first
    one may have set is the one it already used. *)
Theorem ToSelectDataset_again (now : goqu.DateTime)
    (o : recordQueryImplementation) (driver table : string) :
  ToSelectDataset now (fst (ToSelectDataset now o driver table)) driver table
  = ToSelectDataset now o driver table.
Proof.
  destruct (Validate o) as [e|] eqn:HV.
  - rewrite (ToSelectDataset_invalid now o driver table e HV). cbn [fst].
    apply ToSelectDataset_invalid, HV.
  - destruct (IsSoftDeletedIncluded o) eqn:HS.
    + rewrite (ToSelectDataset_soft_deleted_included now o driver table HV HS).
      cbn [fst]. apply ToSelectDataset_soft_deleted_included; assumption.
    + rewrite (ToSelectDataset_default now o driver table HV HS). cbn [fst].
      assert (E : with_default_limit o = o \/ with_default_limit o = SetLimit o 10).
      { unfold with_default_limit.
        destruct (IsOffsetSet o && negb (IsLimitSet o)); auto. }
      assert (HV' : Validate (with_default_limit o) = None).
      { destruct E as [-> | ->]; exact HV. }
      assert (HS' : IsSoftDeletedIncluded (with_default_limit o) = false).
      { destruct E as [-> | ->]; exact HS. }
      rewrite ToSelectDataset_default by assumption.
      destruct (with_default_limit_again o) as (E1 & E2 & E3).
      rewrite E1, E2, E3.
      destruct E as [-> | ->]; reflexivity.
Qed.

(** ** Limit and offset *)





(** Count-only changes the statement in its limit and offset only: with
    the flag on or off the same query compiles to the same WHERE clauses,
    the same ordering and the same columns. *)
Theorem count_only_keeps_filters (now : goqu.DateTime)
    (o : recordQueryImplementation) (driver table : string) :
  Validate o = None -> IsSoftDeletedIncluded o = false ->
  exists q1 q2,
    selectDataset (snd (ToSelectDataset now (SetCountOnly o true) driver table))
    = Some q1 /\
    selectDataset (snd (ToSelectDataset now (SetCountOnly o false) driver table))
    = Some q2 /\
    goqu.where_ q1 = goqu.where_ q2 /\ goqu.order q1 = goqu.order q2 /\
    goqu.dialect q1 = goqu.dialect q2 /\ goqu.from q1 = goqu.from q2 /\
    selected (snd (ToSelectDataset now (SetCountOnly o true) driver table))
    = selected (snd (ToSelectDataset now (SetCountOnly o false) driver table)).
Proof.
  intros HV HS.
  rewrite !ToSelectDataset_default by assumption.
  do 2 eexists. repeat split.
Qed.

Lemma count_only_keeps_filters_witness :
  exists q1 q2,
    selectDataset (snd (ToSelectDataset 100%Z (SetCountOnly two_persons true)
                          "sqlite" "records")) = Some q1 /\
    selectDataset (snd (ToSelectDataset 100%Z (SetCountOnly two_persons false)
                          "sqlite" "records")) = Some q2 /\
    goqu.where_ q1 = goqu.where_ q2.
Proof.
  destruct (count_only_keeps_filters 100%Z two_persons "sqlite" "records")
    as (q1 & q2 & H1 & H2 & Hw & _); try (vm_compute; reflexivity).
  exists q1, q2. repeat split; assumption.
Defined.

(** ** The errors of [Validate] *)

(** [Validate] knows four errors and returns the first that applies:
    "type is required" comes out exactly when the ID and ID-list checks
    find nothing and the type is set to the empty string. *)
Theorem Validate_errors (o : recordQueryImplementation) :
  (Validate o = None \/ Validate o = Some "id is required" \/
   Validate o = Some "id list is required" \/
   Validate o = Some "id list contains empty strings" \/
   Validate o = Some "type is required") /\
  (Validate o = Some "type is required" <->
   (IsIDSet o = true -> GetID o <> "") /\
   (IsIDListSet o = true ->
      GetIDList o <> [] /\ forallb (fun s => negb (blank s)) (GetIDList o) = true) /\
   IsTypeSet o = true /\ GetType o = "").
Proof.
  split.
  - unfold Validate.
    destruct (IsIDSet o && _); [tauto|].
    destruct (IsIDListSet o && _); [tauto|].
    destruct (IsIDListSet o && _); [tauto|].
    destruct (IsTypeSet o && _); tauto.
  - split.
    + intros H.
      assert (HV : Validate (SetType o "x") = None).
      { revert H. unfold Validate.
        change (IsIDSet (SetType o "x")) with (IsIDSet o).
        change (GetID (SetType o "x")) with (GetID o).
        change (IsIDListSet (SetType o "x")) with (IsIDListSet o).
        change (GetIDList (SetType o "x")) with (GetIDList o).
        destruct (IsIDSet o && _); [discriminate|].
        destruct (IsIDListSet o && _); [discriminate|].
        destruct (IsIDListSet o && _); [discriminate|]. reflexivity. }
      apply Validate_None_iff in HV as (Hid & Hl & _).
      split; [exact Hid|]. split; [exact Hl|].
      revert H. unfold Validate.
      destruct (IsIDSet o && _); [discriminate|].
      destruct (IsIDListSet o && _); [discriminate|].
      destruct (IsIDListSet o && _); [discriminate|].
      destruct (IsTypeSet o) eqn:ET; [|discriminate]. cbn [andb].
      destruct (String.eqb_spec (GetType o) ""); [tauto | discriminate].
    + intros (Hid & Hl & HT & HE).
      assert (HV : Validate (SetType o "x") = None).
      { apply Validate_None_iff. split; [exact Hid|]. split; [exact Hl|].
        intros _. discriminate. }
      apply Validate_SetType_empty in HV.
      replace o with (SetType (SetType o "x") ""); [exact HV|].
      destruct o as [hid i hl il ts rt cols co sd ls lim os ofs obs ob ps pn].
      unfold IsTypeSet, GetType in HT, HE. simpl in HT, HE. subst. reflexivity.
Qed.

Lemma Validate_errors_witness :
  Validate untyped_from_fifth = Some "type is required".
Proof.
  apply (proj2 (Validate_errors untyped_from_fifth)).
  split; [discriminate|]. split; [discriminate|]. split; reflexivity.
Defined.

(** ** [applyPagination] on any dataset *)

(** [applyPagination] touches nothing of a dataset but its limit and its
    offset, and for a count-only query it returns the dataset as it is;
    a limit or offset already on the dataset stays unless the query sets
    one. *)
Theorem applyPagination_frame (o : recordQueryImplementation)
    (q : goqu.SelectDataset) :
  goqu.where_ (snd (applyPagination o q)) = goqu.where_ q /\
  goqu.order (snd (applyPagination o q)) = goqu.order q /\
  goqu.dialect (snd (applyPagination o q)) = goqu.dialect q /\
  goqu.from (snd (applyPagination o q)) = goqu.from q /\
  (IsCountOnly o = true -> snd (applyPagination o q) = q) /\
  (IsLimitSet o = false -> IsOffsetSet o = false -> snd (applyPagination o q) = q).
Proof.
  destruct o as [hid i hl il ts rt cols co sd ls lim os ofs obs ob ps pn].
  unfold applyPagination, IsOffsetSet, IsLimitSet, IsCountOnly, GetLimit,
    GetOffset, SetLimit.
  cbn [isOffsetSet isLimitSet isCountOnly limit offset].
  destruct os, ls, co; simpl; repeat split; intros; try discriminate; reflexivity.
Qed.

Lemma applyPagination_frame_witness :
  snd (applyPagination counted_page
         (goqu.Limit (goqu.From "sqlite" "records") 7))
  = goqu.Limit (goqu.From "sqlite" "records") 7.
Proof.
  destruct (applyPagination_frame counted_page
              (goqu.Limit (goqu.From "sqlite" "records") 7))
    as (_ & _ & _ & _ & Hcount & _).
  exact (Hcount eq_refl).
Defined.
